(** * Biblioteca: the client-side document library

    A shallow embedding of the filtering effect of [App.tsx], the derived
    collections handed to the sidebar, the sidebar's filter handlers, the
    upload path ([UploadModal] and [uploadFile]) and the viewer's preview
    dispatch ([DocumentViewer.loadDocument] and [renderContent]), with the
    properties the specification states about them. *)

From Stdlib Require Import ZArith List String Ascii Bool Lia Btauto.
From Stdlib Require Import Permutation Sorted.
From stdpp Require Import gmap.
Import ListNotations.

Local Open Scope Z_scope.

(** ** JavaScript strings and arrays

    Strings are sequences of code units.  [toLowerCase] maps the ASCII
    capitals to small letters and leaves every other code unit alone. *)

Module JS.

Definition lowerChar (c : ascii) : ascii :=
  let n := nat_of_ascii c in
  if ((65 <=? n) && (n <=? 90))%nat then ascii_of_nat (n + 32) else c.

Fixpoint toLowerCase (s : string) : string :=
  match s with
  | EmptyString => EmptyString
  | String c s' => String (lowerChar c) (toLowerCase s')
  end.

(** [includes s sub] is [s.includes(sub)]. *)
Fixpoint includes (s sub : string) : bool :=
  String.prefix sub s ||
  match s with
  | EmptyString => false
  | String _ s' => includes s' sub
  end.

(** [endsWith s suf] is [s.endsWith(suf)]. *)
Definition endsWith (s suf : string) : bool :=
  let n := String.length s in
  let m := String.length suf in
  ((m <=? n)%nat && String.eqb (String.substring (n - m) m s) suf)%bool.

(** Truthiness of a string: only the empty string is falsy. *)
Definition truthy (s : string) : bool :=
  match s with EmptyString => false | _ => true end.

(** Truthiness of an optional string ([undefined], [null] and [''] are
    falsy). *)
Definition truthyOpt (o : option string) : bool :=
  match o with Some s => truthy s | None => false end.

(** [arr.includes(x)] on an array of strings. *)
Definition arrIncludes (arr : list string) (x : string) : bool :=
  existsb (String.eqb x) arr.

(** [arr.includes(x)] where [x] may be [undefined]: an array of strings
    has no [undefined] element. *)
Definition arrIncludesOpt (arr : list string) (x : option string) : bool :=
  match x with Some s => arrIncludes arr s | None => false end.

(** [Array.prototype.sort] is stable: elements that compare equal keep
    their relative order, and an element goes before another exactly when
    the comparator is negative.  With a consistent comparator this fixes
    the result, computed here by stable insertion. *)
Section Sort.
Context {A : Type} (cmp : A -> A -> Z).

Fixpoint sortInsert (x : A) (l : list A) : list A :=
  match l with
  | [] => [x]
  | y :: l' => if cmp x y <=? 0 then x :: l else y :: sortInsert x l'
  end.

Definition sort (l : list A) : list A := fold_right sortInsert [] l.
End Sort.

(** [arr.slice(0, n)]. *)
Definition slice0 {A : Type} (n : nat) (l : list A) : list A := firstn n l.

(** [new Set(arr)] spread back into an array: insertion order, first
    occurrence kept. *)
Definition setAdd (seen : list string) (x : string) : list string :=
  if arrIncludes seen x then seen else seen ++ [x].

Definition newSet (arr : list string) : list string :=
  fold_left setAdd arr [].

End JS.

(** ** Data model ([types.ts], as the code uses it) *)

(** [dateAdded] holds an ISO instant; the code only ever reads it through
    [new Date(doc.dateAdded).getTime()], so the field is kept as that
    number of milliseconds since the epoch. *)
Record Document : Type := mkDocument {
  id : string;
  title : string;
  type : string;
  tags : list string;
  dateAdded : Z;
  favorite : bool;
  category : option string;
  backgroundColor : string;
  content : option string;
  storagePath : option string
}.

Inductive CurrentSection : Type := files | articles | favorites | recent.

Inductive Timeframe : Type := TfAll | Today | ThisWeek | ThisMonth.

Module FilterOptions.
Record t : Type := mk {
  types : list string;
  categories : list string;
  timeframe : Timeframe;
  tags : list string
}.
End FilterOptions.

(** The initial value of the [filters] state, also what "Clear all filters"
    sets. *)
Definition defaultFilters : FilterOptions.t :=
  FilterOptions.mk [] [] TfAll [].

(** ** The filtering effect of [App] *)

(** Comparator of the [recent] section. *)
Definition byDateDesc (a b : Document) : Z := dateAdded b - dateAdded a.

Definition sectionStage (currentSection : CurrentSection)
    (filtered : list Document) : list Document :=
  match currentSection with
  | favorites => List.filter favorite filtered
  | articles => List.filter (fun doc => String.eqb (type doc) "article") filtered
  | recent => JS.slice0 6 (JS.sort byDateDesc filtered)
  | files => filtered
  end.

Definition searchMatch (query : string) (doc : Document) : bool :=
  JS.includes (JS.toLowerCase (title doc)) query
  || existsb (fun tag => JS.includes (JS.toLowerCase tag) query) (tags doc)
  || match category doc with
     | Some c => JS.truthy c && JS.includes (JS.toLowerCase c) query
     | None => false
     end.

Definition searchStage (searchQuery : string)
    (filtered : list Document) : list Document :=
  if JS.truthy searchQuery
  then List.filter (searchMatch (JS.toLowerCase searchQuery)) filtered
  else filtered.

Definition typeMatch (types : list string) (doc : Document) : bool :=
  JS.arrIncludes types (type doc) || JS.arrIncludes types "all".

Definition typeStage (filters : FilterOptions.t)
    (filtered : list Document) : list Document :=
  match FilterOptions.types filters with
  | [] => filtered
  | _ => List.filter (typeMatch (FilterOptions.types filters)) filtered
  end.

Definition categoryMatch (categories : list string) (doc : Document) : bool :=
  JS.arrIncludesOpt categories (category doc)
  || JS.arrIncludes categories "all"
  || (JS.arrIncludes categories "uncategorized"
      && negb (JS.truthyOpt (category doc))).

Definition categoryStage (filters : FilterOptions.t)
    (filtered : list Document) : list Document :=
  match FilterOptions.categories filters with
  | [] => filtered
  | _ => List.filter (categoryMatch (FilterOptions.categories filters)) filtered
  end.

Definition tagMatch (selected : list string) (doc : Document) : bool :=
  existsb (fun tag => JS.arrIncludes selected tag) (tags doc).

Definition tagStage (filters : FilterOptions.t)
    (filtered : list Document) : list Document :=
  match FilterOptions.tags filters with
  | [] => filtered
  | _ => List.filter (tagMatch (FilterOptions.tags filters)) filtered
  end.

Definition dayMs : Z := 24 * 60 * 60 * 1000.

(** [today] is the value of
    [new Date(now.getFullYear(), now.getMonth(), now.getDate()).getTime()]:
    the instant of the last local midnight. *)
Definition timeMatch (tf : Timeframe) (today : Z) (doc : Document) : bool :=
  let docDate := dateAdded doc in
  match tf with
  | Today => today <=? docDate
  | ThisWeek => let weekAgo := today - 7 * dayMs in weekAgo <=? docDate
  | ThisMonth => let monthAgo := today - 30 * dayMs in monthAgo <=? docDate
  | TfAll => true
  end.

Definition timeStage (filters : FilterOptions.t) (today : Z)
    (filtered : list Document) : list Document :=
  match FilterOptions.timeframe filters with
  | TfAll => filtered
  | tf => List.filter (timeMatch tf today) filtered
  end.

(** The list handed to [setFilteredDocuments]. *)
Definition filterDocuments (documents : list Document)
    (currentSection : CurrentSection) (searchQuery : string)
    (filters : FilterOptions.t) (today : Z) : list Document :=
  let filtered := documents in
  let filtered := sectionStage currentSection filtered in
  let filtered := searchStage searchQuery filtered in
  let filtered := typeStage filters filtered in
  let filtered := categoryStage filters filtered in
  let filtered := tagStage filters filtered in
  timeStage filters today filtered.

(** ** The same effect over a store of arrays

    Arrays are objects: [sort] reorders its receiver in place and returns
    it, while the spread, [filter] and [slice] allocate.  The store maps
    references to array contents. *)

Module Store.

Definition ref : Type := positive.
Abbreviation store := (gmap positive (list Document)).

Definition M (A : Type) : Type := store -> A * store.

Definition ret {A : Type} (a : A) : M A := fun h => (a, h).

Definition bind {A B : Type} (c : M A) (k : A -> M B) : M B :=
  fun h => let '(a, h') := c h in k a h'.

Notation "'let*' x ':=' c 'in' k" := (bind c (fun x => k))
  (at level 10, x name, c at level 100, k at level 200).

Definition alloc (l : list Document) : M ref :=
  fun h => let r := fresh (dom h) in (r, <[r := l]> h).

Definition read (r : ref) : M (list Document) :=
  fun h => (default [] (h !! r), h).

Definition write (r : ref) (l : list Document) : M unit :=
  fun h => (tt, <[r := l]> h).

(** [[...arr]] *)
Definition spread (r : ref) : M ref := let* l := read r in alloc l.

(** [arr.filter(p)] *)
Definition filterArr (p : Document -> bool) (r : ref) : M ref :=
  let* l := read r in alloc (List.filter p l).

(** [arr.sort(cmp)]: in place, returns the receiver. *)
Definition sortArr (cmp : Document -> Document -> Z) (r : ref) : M ref :=
  let* l := read r in let* _ := write r (JS.sort cmp l) in ret r.

(** [arr.slice(0, n)] *)
Definition sliceArr (n : nat) (r : ref) : M ref :=
  let* l := read r in alloc (JS.slice0 n l).

(** The body of the filtering [useEffect]; the result is the reference
    given to [setFilteredDocuments]. *)
Definition filterEffect (documents : ref) (currentSection : CurrentSection)
    (searchQuery : string) (filters : FilterOptions.t) (today : Z) : M ref :=
  let* filtered := spread documents in
  let* filtered :=
    match currentSection with
    | favorites => filterArr favorite filtered
    | articles =>
        filterArr (fun doc => String.eqb (type doc) "article") filtered
    | recent =>
        let* sorted := sortArr byDateDesc filtered in sliceArr 6 sorted
    | files => ret filtered
    end in
  let* filtered :=
    if JS.truthy searchQuery
    then filterArr (searchMatch (JS.toLowerCase searchQuery)) filtered
    else ret filtered in
  let* filtered :=
    match FilterOptions.types filters with
    | [] => ret filtered
    | _ => filterArr (typeMatch (FilterOptions.types filters)) filtered
    end in
  let* filtered :=
    match FilterOptions.categories filters with
    | [] => ret filtered
    | _ =>
        filterArr (categoryMatch (FilterOptions.categories filters)) filtered
    end in
  let* filtered :=
    match FilterOptions.tags filters with
    | [] => ret filtered
    | _ => filterArr (tagMatch (FilterOptions.tags filters)) filtered
    end in
  match FilterOptions.timeframe filters with
  | TfAll => ret filtered
  | tf => filterArr (timeMatch tf today) filtered
  end.

(** After a step: everything that was in the initial store [h0] is
    untouched, and the working array [r] is an array of the step's own
    holding [l]. *)
Definition owns (h0 : store) (res : ref * store) (l : list Document) : Prop :=
  h0 ⊆ res.2 /\ h0 !! res.1 = None /\ res.2 !! res.1 = Some l.

End Store.

(** ** Derived collections of [App] *)

(** [arr.filter(Boolean)] on optional strings, narrowed to strings. *)
Definition filterBoolean (arr : list (option string)) : list string :=
  flat_map (fun o => match o with
                     | Some s => if JS.truthy s then [s] else []
                     | None => []
                     end) arr.

Definition getAvailableCategories (documents : list Document) : list string :=
  let categories := filterBoolean (map category documents) in
  ["all"%string] ++ JS.newSet categories ++ ["uncategorized"%string].

Definition getAvailableTags (documents : list Document) : list string :=
  let tags := flat_map tags documents in
  JS.newSet tags.

(** ** The filter handlers of [Sidebar]

    Each handler is the function it passes to [setFilters]. *)

Module Sidebar.

Import FilterOptions.

Definition handleTypeChange (typeId : string) (checked : bool)
    (prev : FilterOptions.t) : FilterOptions.t :=
  if String.eqb typeId "all" then
    mk (if checked then ["all"%string] else [])
       (categories prev) (timeframe prev) (tags prev)
  else
    let updatedTypes :=
      List.filter (fun t => negb (String.eqb t "all")) (types prev) in
    if checked then
      mk (updatedTypes ++ [typeId])
         (categories prev) (timeframe prev) (tags prev)
    else
      mk (List.filter (fun t => negb (String.eqb t typeId)) updatedTypes)
         (categories prev) (timeframe prev) (tags prev).

Definition handleCategoryChange (category : string) (checked : bool)
    (prev : FilterOptions.t) : FilterOptions.t :=
  if String.eqb category "all" then
    mk (types prev) (if checked then ["all"%string] else [])
       (timeframe prev) (tags prev)
  else
    let updatedCategories :=
      List.filter (fun c => negb (String.eqb c "all")) (categories prev) in
    if checked then
      mk (types prev) (updatedCategories ++ [category])
         (timeframe prev) (tags prev)
    else
      mk (types prev)
         (List.filter (fun c => negb (String.eqb c category))
            updatedCategories)
         (timeframe prev) (tags prev).

Definition handleTimeChange (timeId : Timeframe)
    (prev : FilterOptions.t) : FilterOptions.t :=
  mk (types prev) (categories prev) timeId (tags prev).

Definition handleTagClick (tag : string)
    (prev : FilterOptions.t) : FilterOptions.t :=
  if JS.arrIncludes (tags prev) tag then
    mk (types prev) (categories prev) (timeframe prev)
       (List.filter (fun t => negb (String.eqb t tag)) (tags prev))
  else
    mk (types prev) (categories prev) (timeframe prev) (tags prev ++ [tag]).

(** What the user can do in the sidebar. *)
Inductive Event : Type :=
| TypeChange (typeId : string) (checked : bool)
| CategoryChange (category : string) (checked : bool)
| TimeChange (timeId : Timeframe)
| TagClick (tag : string)
| ClearAll.

Definition step (filters : FilterOptions.t) (e : Event) : FilterOptions.t :=
  match e with
  | TypeChange typeId checked => handleTypeChange typeId checked filters
  | CategoryChange category checked =>
      handleCategoryChange category checked filters
  | TimeChange timeId => handleTimeChange timeId filters
  | TagClick tag => handleTagClick tag filters
  | ClearAll => defaultFilters
  end.

(** The [filters] state after a sequence of events, from its initial
    value. *)
Definition run (events : list Event) : FilterOptions.t :=
  fold_left step events defaultFilters.

(** "All" is alone or absent. *)
Definition allAlone (selected : list string) : Prop :=
  selected = [] \/ selected = ["all"%string] \/ ~ In "all"%string selected.

End Sidebar.

(** ** More of JavaScript's strings, for the upload path *)

Module JSString.

(** White space removed by [trim], within ASCII. *)
Definition isSpace (c : ascii) : bool :=
  let n := nat_of_ascii c in
  ((n =? 32) || ((9 <=? n) && (n <=? 13)))%nat.

Fixpoint trimStart (s : string) : string :=
  match s with
  | String c s' => if isSpace c then trimStart s' else s
  | EmptyString => EmptyString
  end.

(** Drops trailing white space: a character is kept when it is not white
    space or something is kept after it. *)
Fixpoint trimEnd (s : string) : string :=
  match s with
  | EmptyString => EmptyString
  | String c s' =>
      match trimEnd s' with
      | EmptyString => if isSpace c then EmptyString else String c EmptyString
      | rest => String c rest
      end
  end.

Definition trim (s : string) : string := trimEnd (trimStart s).

(** [s.split(sep)] for a one-character separator: never empty. *)
Fixpoint split (sep : ascii) (s : string) : list string :=
  match s with
  | EmptyString => [EmptyString]
  | String c s' =>
      if Ascii.eqb c sep then EmptyString :: split sep s'
      else match split sep s' with
           | piece :: pieces => String c piece :: pieces
           | [] => [String c EmptyString]
           end
  end.

(** [arr.pop()] of a fresh array, as a value. *)
Definition pop (arr : list string) : string := List.last arr EmptyString.

End JSString.

(** ** Uploading: [uploadFile] of the document service and [UploadModal] *)

Module Upload.

(** Maximum file size in bytes (10MB). *)
Definition MAX_FILE_SIZE : Z := 10 * 1024 * 1024.

Module File.
Record t : Type := mk { name : string; type : string; size : Z }.
End File.

Module Params.
Record t : Type := mk {
  file : File.t;
  title : string;
  category : option string;
  tags : option (list string);
  backgroundColor : option string
}.
End Params.

(** What the backend and the clock answer during one call. *)
Record Backend : Type := mkBackend {
  uniqueName : string;          (* Date.now() and the random suffix *)
  dateNow : Z;                  (* new Date(), for date_added *)
  uploadError : option string;  (* the storage upload's error message *)
  insertResult : string + string (* the insert's error message, or the new id *)
}.

(** Requests that leave the client. *)
Inductive NetEvent : Type :=
| StorageUpload (filePath : string) (file : File.t)
| InsertDocument (title type filePath : string)
| StorageRemove (filePath : string).

Definition orDefault (o : option string) (d : string) : string :=
  if JS.truthyOpt o then default d o else d.

(** The type and default colour chosen from the MIME type and the name. *)
Definition detectType (f : File.t) (bg : option string) : string * string :=
  if JS.includes (File.type f) "pdf" then
    ("pdf", orDefault bg "#FFEBEE")%string
  else if JS.includes (File.type f) "doc" then
    ("doc", orDefault bg "#E8F5E9")%string
  else if JS.includes (File.type f) "image" then
    ("image", orDefault bg "#FFF8E1")%string
  else if JS.includes (File.type f) "markdown"
          || JS.endsWith (File.name f) ".md"
          || JS.endsWith (File.name f) ".markdown" then
    ("markdown", orDefault bg "#E1F5FE")%string
  else if JS.includes (File.type f) "text"
          || JS.endsWith (File.name f) ".txt"
          || JS.endsWith (File.name f) ".json" then
    ("text", orDefault bg "#F3E5F5")%string
  else
    ("other", orDefault bg "#E3F2FD")%string.

(** [transformSupabaseDocument] at the row the insert returns: the row
    has no content, and a null category reads back as the empty string. *)
Definition transformInserted (newId title type : string) (tags : list string)
    (date_added : Z) (category : option string)
    (background_color storage_path : string) : Document :=
  mkDocument newId title type tags date_added false
    (Some (default EmptyString category))
    (if JS.truthy background_color then background_color
     else "#E3F2FD"%string)
    None (Some storage_path).

Definition uploadFile (be : Backend) (params : Params.t)
    : list NetEvent * (string + Document) :=
  let f := Params.file params in
  let '(type, backgroundColor) :=
    detectType f (Params.backgroundColor params) in
  let fileExt := JSString.pop (JSString.split "."%char (File.name f)) in
  let filePath := (uniqueName be ++ "." ++ fileExt)%string in
  match uploadError be with
  | Some msg =>
      ([StorageUpload filePath f],
       inl ("Error uploading file: " ++ msg)%string)
  | None =>
      let category :=
        if JS.truthyOpt (Params.category params)
        then Params.category params else None in
      let tags := default [] (Params.tags params) in
      let insert := InsertDocument (Params.title params) type filePath in
      match insertResult be with
      | inl msg =>
          ([StorageUpload filePath f; insert; StorageRemove filePath],
           inl ("Error creating document record: " ++ msg)%string)
      | inr newId =>
          ([StorageUpload filePath f; insert],
           inr (transformInserted newId (Params.title params) type tags
                  (dateNow be) category backgroundColor filePath))
      end
  end.

(** *** The form of [UploadModal] *)

Module Modal.

Record State : Type := mkState {
  title : string;
  selectedFile : option File.t;
  category : string;
  tags : string;
  backgroundColor : string;
  isUploading : bool;
  error : option string
}.

Definition initial : State :=
  mkState EmptyString None EmptyString EmptyString "#E3F2FD" false None.

Definition resetForm (st : State) : State :=
  mkState EmptyString None EmptyString EmptyString "#E3F2FD" (isUploading st) None.

Definition setError (e : option string) (st : State) : State :=
  mkState (title st) (selectedFile st) (category st) (tags st)
    (backgroundColor st) (isUploading st) e.

Definition setSelectedFile (f : option File.t) (st : State) : State :=
  mkState (title st) f (category st) (tags st)
    (backgroundColor st) (isUploading st) (error st).

Definition setIsUploading (b : bool) (st : State) : State :=
  mkState (title st) (selectedFile st) (category st) (tags st)
    (backgroundColor st) b (error st).

Definition onDrop (acceptedFiles : list File.t) (st : State) : State :=
  match acceptedFiles with
  | file :: _ =>
      if MAX_FILE_SIZE <? File.size file then
        setError (Some "File exceeds the 10MB limit"%string) st
      else
        setError None (setSelectedFile (Some file) st)
  | [] => st
  end.

(** [handleSubmit]: the requests it causes, the next state, and the
    document passed to [onUpload]. *)
Definition handleSubmit (be : Backend) (st : State)
    : list NetEvent * State * option Document :=
  match selectedFile st with
  | Some file =>
      if negb (JS.truthy (JSString.trim (title st))) then
        ([], setError (Some "Title and file are required"%string) st, None)
      else
        let st1 := setError None (setIsUploading true st) in
        let uploadParams :=
          Params.mk file (JSString.trim (title st))
            (if JS.truthy (JSString.trim (category st))
             then Some (JSString.trim (category st)) else None)
            (Some (if JS.truthy (JSString.trim (tags st))
                   then map JSString.trim (JSString.split ","%char (tags st))
                   else []))
            (Some (backgroundColor st)) in
        match uploadFile be uploadParams with
        | (tr, inr result) =>
            (tr, setIsUploading false (resetForm st1), Some result)
        | (tr, inl message) =>
            (tr, setIsUploading false (setError (Some message) st1), None)
        end
  | None =>
      ([], setError (Some "Title and file are required"%string) st, None)
  end.

Inductive Action : Type :=
| SetTitle (s : string)
| SetCategory (s : string)
| SetTags (s : string)
| ColorSelect (color : string)
| Drop (acceptedFiles : list File.t)
| RemoveFile
| Submit (be : Backend)
| Close.

Definition step (a : Action) (st : State) : list NetEvent * State :=
  match a with
  | SetTitle s =>
      ([], mkState s (selectedFile st) (category st) (tags st)
             (backgroundColor st) (isUploading st) (error st))
  | SetCategory s =>
      ([], mkState (title st) (selectedFile st) s (tags st)
             (backgroundColor st) (isUploading st) (error st))
  | SetTags s =>
      ([], mkState (title st) (selectedFile st) (category st) s
             (backgroundColor st) (isUploading st) (error st))
  | ColorSelect color =>
      ([], mkState (title st) (selectedFile st) (category st) (tags st)
             color (isUploading st) (error st))
  | Drop acceptedFiles => ([], onDrop acceptedFiles st)
  | RemoveFile => ([], setSelectedFile None st)
  | Submit be => let '(tr, st', _) := handleSubmit be st in (tr, st')
  | Close => ([], resetForm st)
  end.

(** All requests sent while the user goes through [actions], and the
    final state. *)
Fixpoint run (actions : list Action) (st : State) : list NetEvent * State :=
  match actions with
  | [] => ([], st)
  | a :: rest =>
      let '(tr, st1) := step a st in
      let '(tr', st2) := run rest st1 in
      (tr ++ tr', st2)
  end.

End Modal.

(** A file goes to storage only within the limit. *)
Definition withinLimit (e : NetEvent) : Prop :=
  match e with
  | StorageUpload _ f => File.size f <= MAX_FILE_SIZE
  | _ => True
  end.

End Upload.

(** ** Previewing: [previewDocument], [getDocumentDownloadUrl] and
    [DocumentViewer] *)

Module Viewer.

(** What the document service and the network answer while one document
    is loaded. *)
Record Net : Type := mkNet {
  articleContent : option string;
    (* getArticleContent: the content, [None] when it throws *)
  documentRow : option (option string * string);
    (* storage_path and type of the row, [None] when the query fails *)
  publicUrl : string -> string;
  fetchText : string -> option string
    (* the body of an ok response, [None] otherwise *)
}.

Definition getDocumentDownloadUrl (net : Net) : option string :=
  match documentRow net with
  | Some (storage_path, _) =>
      match storage_path with
      | Some p => if JS.truthy p then Some (publicUrl net p) else None
      | None => None
      end
  | None => None
  end.

Definition previewDocument (net : Net) : option (string * string) :=
  match documentRow net with
  | Some (storage_path, type) =>
      let contentType :=
        if String.eqb type "pdf" then "application/pdf"
        else if String.eqb type "image" then "image/jpeg"
        else if String.eqb type "markdown" then "text/markdown"
        else if String.eqb type "text" then "text/plain"
        else "application/octet-stream" in
      if JS.truthyOpt storage_path
      then Some (publicUrl net (default EmptyString storage_path), contentType)
      else Some (EmptyString, contentType)
  | None => None
  end%string.

Record State : Type := mkState {
  previewUrl : option string;
  downloadUrl : option string;
  fileContent : option string;
  contentType : string;
  isLoading : bool;
  error : option string
}.

Definition resetState : State := mkState None None None EmptyString false None.

Inductive Call : Type :=
| GetArticleContent (id : string)
| GetDownloadUrl (id : string)
| PreviewDocument (id : string)
| Fetch (url : string).

(** [document.storagePath?.endsWith(suf)], as a condition. *)
Definition pathEndsWith (storagePath : option string) (suf : string) : bool :=
  match storagePath with
  | Some p => JS.endsWith p suf
  | None => false
  end.

(** The state once [loadDocument] has settled, and the calls it made. *)
Definition loadDocument (net : Net) (document : Document) (st : State)
    : list Call * State :=
  let failed calls dl pv :=
    (calls, mkState pv dl (fileContent st) (contentType st) false
              (Some "Error loading document"%string)) in
  if String.eqb (type document) "article" then
    match articleContent net with
    | Some contentResult =>
        ([GetArticleContent (id document)],
         mkState (previewUrl st) (downloadUrl st) (Some contentResult)
           "text/plain" false None)
    | None =>
        failed [GetArticleContent (id document)]
          (downloadUrl st) (previewUrl st)
    end
  else
    match getDocumentDownloadUrl net with
    | None => failed [GetDownloadUrl (id document)]
                (downloadUrl st) (previewUrl st)
    | Some downloadResult =>
        let calls :=
          [GetDownloadUrl (id document); PreviewDocument (id document)] in
        match previewDocument net with
        | None => failed calls (Some downloadResult) (previewUrl st)
        | Some (url, previewType) =>
            let settled content ctype :=
              mkState (Some url) (Some downloadResult) content ctype
                false None in
            let fetched :=
              match fetchText net url with
              | Some text => Some text
              | None => fileContent st
              end in
            if String.eqb (type document) "pdf" then
              (calls, settled (fileContent st) "application/pdf"%string)
            else if String.eqb (type document) "image" then
              (calls, settled (fileContent st) "image/jpeg"%string)
            else if JS.includes (type document) "markdown"
                    || pathEndsWith (storagePath document) ".md" then
              (calls ++ [Fetch url], settled fetched "text/markdown"%string)
            else if JS.includes (type document) "text"
                    || pathEndsWith (storagePath document) ".txt"
                    || pathEndsWith (storagePath document) ".json" then
              (calls ++ [Fetch url], settled fetched "text/plain"%string)
            else
              (calls,
               settled (fileContent st)
                 (if JS.truthy previewType then previewType
                  else "application/octet-stream"%string))
        end
    end.

Inductive View : Type :=
| Spinner
| ErrorView (message : string)
| MarkdownView (source : string)
| TextView (text : string)
| ImageView (url : string)
| PdfView (url : string)
| Fallback (download : option string).

Definition renderContent (document : Document) (st : State) : View :=
  if isLoading st then Spinner
  else if JS.truthyOpt (error st) then ErrorView (default EmptyString (error st))
  else if JS.truthyOpt (fileContent st) then
    if String.eqb (contentType st) "text/markdown"
    then MarkdownView (default EmptyString (fileContent st))
    else TextView (default EmptyString (fileContent st))
  else if JS.truthyOpt (previewUrl st)
          && String.eqb (type document) "image" then
    ImageView (default EmptyString (previewUrl st))
  else if JS.truthyOpt (previewUrl st)
          && String.eqb (type document) "pdf" then
    PdfView (default EmptyString (previewUrl st))
  else
    Fallback (if JS.truthyOpt (downloadUrl st) then downloadUrl st else None).

(** The render modes of the specification. *)
Inductive RenderMode : Type :=
| InlineText | Markdown | PlainText | Image | Pdf | Unsupported.




(** The dispatch of [loadDocument], by type and storage path alone, in
    the order the code tests them. *)
Definition classify (type : string) (storagePath : option string)
    : RenderMode :=
  if String.eqb type "article" then InlineText
  else if String.eqb type "pdf" then Pdf
  else if String.eqb type "image" then Image
  else if JS.includes type "markdown" || pathEndsWith storagePath ".md"
  then Markdown
  else if JS.includes type "text" || pathEndsWith storagePath ".txt"
          || pathEndsWith storagePath ".json"
  then PlainText
  else Unsupported.


End Viewer.

(** ** Vocabulary of the properties *)

(** Most recent first. *)
Definition newerFirst (a b : Document) : Prop := dateAdded b <= dateAdded a.

Definition descending (l : list Document) : Prop :=
  StronglySorted newerFirst l.


(** Every stage after the section is [List.filter] by one predicate on
    single documents. *)
Definition laterMatch (searchQuery : string) (filters : FilterOptions.t)
    (today : Z) (doc : Document) : bool :=
  (if JS.truthy searchQuery
   then searchMatch (JS.toLowerCase searchQuery) doc else true)
  && match FilterOptions.types filters with
     | [] => true
     | _ => typeMatch (FilterOptions.types filters) doc
     end
  && match FilterOptions.categories filters with
     | [] => true
     | _ => categoryMatch (FilterOptions.categories filters) doc
     end
  && match FilterOptions.tags filters with
     | [] => true
     | _ => tagMatch (FilterOptions.tags filters) doc
     end
  && match FilterOptions.timeframe filters with
     | TfAll => true
     | tf => timeMatch tf today doc
     end.

(** The two documents of the specification's scenarios; what a scenario
    leaves unsaid is empty or absent. *)
Module Scenario.

Definition plain (id type : string) (favorite : bool) (dateAdded : Z)
    : Document :=
  mkDocument id EmptyString type [] dateAdded favorite None "#E3F2FD"
    None None.

(** 2024-01-01 and 2024-06-01, at midnight UTC. *)
Definition doc1 : Document := plain "1" "article" true 1704067200000.
Definition doc2 : Document := plain "2" "pdf" false 1717200000000.

Definition documents : list Document := [doc1; doc2].

Definition withTitle (t : string) (d : Document) : Document :=
  mkDocument (id d) t (type d) (tags d) (dateAdded d) (favorite d)
    (category d) (backgroundColor d) (content d) (storagePath d).

Definition withCategory (c : option string) (d : Document) : Document :=
  mkDocument (id d) (title d) (type d) (tags d) (dateAdded d) (favorite d)
    c (backgroundColor d) (content d) (storagePath d).

Definition withTags (ts : list string) (d : Document) : Document :=
  mkDocument (id d) (title d) (type d) ts (dateAdded d) (favorite d)
    (category d) (backgroundColor d) (content d) (storagePath d).

Definition withDate (t : Z) (d : Document) : Document :=
  mkDocument (id d) (title d) (type d) (tags d) t (favorite d)
    (category d) (backgroundColor d) (content d) (storagePath d).

Definition withStorage (ty : string) (path : option string) (d : Document)
    : Document :=
  mkDocument (id d) (title d) ty (tags d) (dateAdded d) (favorite d)
    (category d) (backgroundColor d) (content d) path.

End Scenario.

(** [s] contains [q] once lowered. *)
Definition containsCI (s q : string) : Prop :=
  exists pre post, JS.toLowerCase s = (pre ++ q ++ post)%string.

(** [q] occurs in the title, in a tag or in the category of [d]. *)
Definition mentions (q : string) (d : Document) : Prop :=
  containsCI (title d) q \/
  (exists tag, In tag (tags d) /\ containsCI tag q) \/
  (exists c, category d = Some c /\ containsCI c q).

(** Each string once, at the place of its first occurrence. *)
Fixpoint firstOccurrences (l : list string) : list string :=
  match l with
  | [] => []
  | x :: l' =>
      x :: List.filter (fun y => negb (String.eqb y x)) (firstOccurrences l')
  end.

(** The form has no file selected, or one within the limit. *)
Definition selectedWithinLimit (st : Upload.Modal.State) : Prop :=
  match Upload.Modal.selectedFile st with
  | Some f => Upload.File.size f <= Upload.MAX_FILE_SIZE
  | None => True
  end.

(** An 11 MiB PDF and a backend that accepts everything. *)
Module BigUpload.

Definition file : Upload.File.t :=
  Upload.File.mk "scan.pdf" "application/pdf" (11 * 1024 * 1024).

Definition params : Upload.Params.t :=
  Upload.Params.mk file "Scan" None None None.

Definition backend : Upload.Backend :=
  Upload.mkBackend "1700000000000_abc" 1700000000000 None (inr "42"%string).

End BigUpload.

(** A backend that answers every request of the viewer, and a PDF whose
    stored name ends in ".md". *)
Module PreviewSample.

Definition net : Viewer.Net :=
  Viewer.mkNet (Some "Some text"%string)
    (Some (Some "1700000000000_abc.md"%string, "pdf"%string))
    (fun p => ("https://storage.example/" ++ p)%string)
    (fun _ => Some "# Notes"%string).


Definition notesMd : Document :=
  Scenario.withStorage "other" (Some "1700000000001_xyz.md"%string)
    Scenario.doc2.

End PreviewSample.

(** ** Rows of the [documents] table and [transformSupabaseDocument] *)

Module DocumentRow.
Record t : Type := mk {
  id : string;
  title : string;
  type : string;
  tags : option (list string);
  date_added : Z;
  favorite : bool;
  category : option string;
  background_color : option string;
  content : option string;
  storage_path : option string
}.
End DocumentRow.

Definition transformSupabaseDocument (record : DocumentRow.t) : Document :=
  mkDocument (DocumentRow.id record) (DocumentRow.title record) (DocumentRow.type record)
    (default [] (DocumentRow.tags record))
    (DocumentRow.date_added record) (DocumentRow.favorite record)
    (Some (if JS.truthyOpt (DocumentRow.category record)
           then default EmptyString (DocumentRow.category record)
           else EmptyString))
    (if JS.truthyOpt (DocumentRow.background_color record)
     then default EmptyString (DocumentRow.background_color record)
     else "#E3F2FD"%string)
    (DocumentRow.content record) (DocumentRow.storage_path record).

(** ** The other calls of the document service *)

Module Service.

(** [listDocuments]: the query's error message, or the rows it returns
    ([null] data reads as no rows). *)
Definition listDocuments (response : string + option (list DocumentRow.t))
    : string + list Document :=
  match response with
  | inl message => inl ("Error fetching documents: " ++ message)%string
  | inr data => inr (map transformSupabaseDocument (default [] data))
  end.

(** [toggleFavorite]: [None] when it throws. *)
Definition toggleFavorite (updateError : option string) : option bool :=
  match updateError with
  | Some _ => None
  | None => Some true
  end.

(** What the backend answers during [deleteDocument]. *)
Record DeleteBackend : Type := mkDeleteBackend {
  fetchRow : string + option string;
    (* the select's error message, or the row's storage_path *)
  storageError : option string;
  deleteError : option string
}.

Inductive DeleteEvent : Type :=
| SelectStoragePath (id : string)
| RemoveBlob (storage_path : string)
| DeleteRecord (id : string).

Definition deleteDocument (be : DeleteBackend) (id : string)
    : list DeleteEvent * (string + bool) :=
  match fetchRow be with
  | inl message =>
      ([SelectStoragePath id],
       inl ("Error fetching document: " ++ message)%string)
  | inr storage_path =>
      let removal :=
        if JS.truthyOpt storage_path
        then [RemoveBlob (default EmptyString storage_path)] else [] in
      let events := [SelectStoragePath id] ++ removal ++ [DeleteRecord id] in
      match deleteError be with
      | Some message =>
          (events, inl ("Error deleting document: " ++ message)%string)
      | None => (events, inr true)
      end
  end.

Module ArticleParams.
Record t : Type := mk {
  title : string;
  content : string;
  category : option string;
  tags : option (list string);
  backgroundColor : option string
}.
End ArticleParams.

Record SaveBackend : Type := mkSaveBackend {
  saveNow : Z;                    (* new Date(), for date_added *)
  saveResult : string + string    (* the insert's error message, or the new id *)
}.

Inductive SaveEvent : Type :=
| InsertArticle (title content : string).

(** [saveArticle]; the insert returns the row it stored, with its id. *)
Definition saveArticle (be : SaveBackend) (params : ArticleParams.t)
    : list SaveEvent * (string + Document) :=
  let documentData newId :=
    DocumentRow.mk newId (ArticleParams.title params) "article"
      (Some (default [] (ArticleParams.tags params)))
      (saveNow be) false
      (if JS.truthyOpt (ArticleParams.category params)
       then ArticleParams.category params else None)
      (Some (Upload.orDefault (ArticleParams.backgroundColor params)
               "#E3F2FD"))
      (Some (ArticleParams.content params)) None in
  let events :=
    [InsertArticle (ArticleParams.title params)
       (ArticleParams.content params)] in
  match saveResult be with
  | inl message => (events, inl ("Error saving article: " ++ message)%string)
  | inr newId => (events, inr (transformSupabaseDocument (documentData newId)))
  end.

End Service.

(** The row [uploadFile] inserts, as the insert returns it. *)
Definition uploadedRow (newId title type : string) (tags : list string)
    (date_added : Z) (category : option string)
    (background_color storage_path : string) : DocumentRow.t :=
  DocumentRow.mk newId title type (Some tags) date_added false category
    (Some background_color) None (Some storage_path).

(** ** The document list of [App] and the buttons of [FilesView] *)

Module App.

Definition handleSaveArticle (newDocument : Document)
    (prevDocs : list Document) : list Document :=
  newDocument :: prevDocs.

Definition handleUpload (newDocument : Document)
    (prevDocs : list Document) : list Document :=
  newDocument :: prevDocs.

(** [{ ...doc, favorite: isFavorite }] *)
Definition withFavorite (isFavorite : bool) (doc : Document) : Document :=
  mkDocument (id doc) (title doc) (type doc) (tags doc) (dateAdded doc)
    isFavorite (category doc) (backgroundColor doc) (content doc)
    (storagePath doc).

(** [handleToggleFavorite], given what [toggleFavorite] returned ([None]
    when it threw). *)
Definition handleToggleFavorite (result : option bool) (id0 : string)
    (isFavorite : bool) (prevDocs : list Document) : list Document :=
  match result with
  | Some true =>
      map (fun doc => if String.eqb (id doc) id0
                      then withFavorite isFavorite doc else doc) prevDocs
  | _ => prevDocs
  end.

(** [handleDeleteDocument], given what [deleteDocument] returned. *)
Definition handleDeleteDocument (result : string + bool) (id0 : string)
    (prevDocs : list Document) : list Document :=
  match result with
  | inr true =>
      List.filter (fun doc => negb (String.eqb (id doc) id0)) prevDocs
  | _ => prevDocs
  end.

Definition getSectionTitle (currentSection : CurrentSection) : string :=
  match currentSection with
  | files => "My Files"
  | articles => "My Articles"
  | favorites => "Favorites"
  | recent => "Recent"
  end.

(** The heart button of [FilesView] on [document], through
    [toggleFavorite] and [handleToggleFavorite]. *)
Definition clickFavorite (updateError : option string) (document : Document)
    (prevDocs : list Document) : list Document :=
  handleToggleFavorite (Service.toggleFavorite updateError) (id document)
    (negb (favorite document)) prevDocs.

(** The bin button of [FilesView] on [document]: the requests sent and
    the next list, given the answer to the confirmation. *)
Definition clickDelete (confirmed : bool) (be : Service.DeleteBackend)
    (document : Document) (prevDocs : list Document)
    : list Service.DeleteEvent * list Document :=
  if confirmed then
    let '(events, result) := Service.deleteDocument be (id document) in
    (events, handleDeleteDocument result (id document) prevDocs)
  else ([], prevDocs).

End App.

(** ** The form of [Editor] *)

Module Editor.

Record State : Type := mkState {
  title : string;
  content : string;
  category : string;
  tags : string;
  backgroundColor : string;
  isSaving : bool;
  error : option string
}.

Definition initial : State :=
  mkState EmptyString EmptyString EmptyString EmptyString "#E3F2FD"
    false None.

Definition resetForm (st : State) : State :=
  mkState EmptyString EmptyString EmptyString EmptyString "#E3F2FD"
    (isSaving st) None.

Definition setError (e : option string) (st : State) : State :=
  mkState (title st) (content st) (category st) (tags st)
    (backgroundColor st) (isSaving st) e.

Definition setIsSaving (b : bool) (st : State) : State :=
  mkState (title st) (content st) (category st) (tags st)
    (backgroundColor st) b (error st).

(** [handleSave]: the requests it causes, the next state, and the
    document passed to [onSave]. *)
Definition handleSave (be : Service.SaveBackend) (st : State)
    : list Service.SaveEvent * State * option Document :=
  if negb (JS.truthy (JSString.trim (title st)))
     || negb (JS.truthy (JSString.trim (content st))) then
    ([], setError (Some "Title and content are required"%string) st, None)
  else
    let st1 := setError None (setIsSaving true st) in
    let params :=
      Service.ArticleParams.mk (JSString.trim (title st))
        (JSString.trim (content st))
        (if JS.truthy (JSString.trim (category st))
         then Some (JSString.trim (category st)) else None)
        (Some (if JS.truthy (JSString.trim (tags st))
               then map JSString.trim (JSString.split ","%char (tags st))
               else []))
        (Some (backgroundColor st)) in
    match Service.saveArticle be params with
    | (tr, inr result) =>
        (tr, setIsSaving false (resetForm st1), Some result)
    | (tr, inl message) =>
        (tr, setIsSaving false (setError (Some message) st1), None)
    end.

Inductive Action : Type :=
| SetTitle (s : string)
| SetContent (s : string)
| SetCategory (s : string)
| SetTags (s : string)
| ColorSelect (color : string)
| Save (be : Service.SaveBackend)
| Close.

Definition step (a : Action) (st : State)
    : list Service.SaveEvent * State :=
  match a with
  | SetTitle s =>
      ([], mkState s (content st) (category st) (tags st)
             (backgroundColor st) (isSaving st) (error st))
  | SetContent s =>
      ([], mkState (title st) s (category st) (tags st)
             (backgroundColor st) (isSaving st) (error st))
  | SetCategory s =>
      ([], mkState (title st) (content st) s (tags st)
             (backgroundColor st) (isSaving st) (error st))
  | SetTags s =>
      ([], mkState (title st) (content st) (category st) s
             (backgroundColor st) (isSaving st) (error st))
  | ColorSelect color =>
      ([], mkState (title st) (content st) (category st) (tags st)
             color (isSaving st) (error st))
  | Save be => let '(tr, st', _) := handleSave be st in (tr, st')
  | Close => ([], resetForm st)
  end.

Fixpoint run (actions : list Action) (st : State)
    : list Service.SaveEvent * State :=
  match actions with
  | [] => ([], st)
  | a :: rest =>
      let '(tr, st1) := step a st in
      let '(tr', st2) := run rest st1 in
      (tr ++ tr', st2)
  end.

End Editor.

(** ** Paging through a PDF in [DocumentViewer] *)

Module Pager.

Record State : Type := mkState {
  pageNumber : Z;
  numPages : option Z
}.

(** [numPages || 1]: [null] and [0] are falsy. *)
Definition pagesOr1 (st : State) : Z :=
  match numPages st with
  | Some n => if n =? 0 then 1 else n
  | None => 1
  end.

Definition nextPage (st : State) : State :=
  if pageNumber st <? pagesOr1 st
  then mkState (pageNumber st + 1) (numPages st) else st.

Definition prevPage (st : State) : State :=
  if 1 <? pageNumber st
  then mkState (pageNumber st - 1) (numPages st) else st.

Inductive Button : Type := Next | Previous.

Definition press (st : State) (b : Button) : State :=
  match b with Next => nextPage st | Previous => prevPage st end.

(** A freshly loaded PDF of [n] pages: [resetState] put the page at 1. *)
Definition loaded (n : Z) : State := mkState 1 (Some n).

End Pager.

(** ** Checkboxes of the sidebar

    A checkbox shows whether its entry is selected, and its change event
    carries the opposite of what it shows. *)

Module Checkbox.

Definition fromCheckbox (filters : FilterOptions.t) (e : Sidebar.Event)
    : Prop :=
  match e with
  | Sidebar.TypeChange typeId checked =>
      checked = negb (JS.arrIncludes (FilterOptions.types filters) typeId)
  | Sidebar.CategoryChange category checked =>
      checked =
      negb (JS.arrIncludes (FilterOptions.categories filters) category)
  | _ => True
  end.

(** Every event of the sequence comes from the sidebar as it is shown
    when the event happens. *)
Fixpoint fromCheckboxes (filters : FilterOptions.t)
    (events : list Sidebar.Event) : Prop :=
  match events with
  | [] => True
  | e :: rest =>
      fromCheckbox filters e /\ fromCheckboxes (Sidebar.step filters e) rest
  end.

End Checkbox.

(** ** Vocabulary for uploads *)

(** The default colour of each document type. *)
Definition defaultColor (type : string) : string :=
  if String.eqb type "pdf" then "#FFEBEE"
  else if String.eqb type "doc" then "#E8F5E9"
  else if String.eqb type "image" then "#FFF8E1"
  else if String.eqb type "markdown" then "#E1F5FE"
  else if String.eqb type "text" then "#F3E5F5"
  else "#E3F2FD".

(** [c] occurs in [s]. *)
Fixpoint hasChar (c : ascii) (s : string) : bool :=
  match s with
  | EmptyString => false
  | String x s' => Ascii.eqb x c || hasChar c s'
  end.

(** [pieces.join(sep)] *)
Fixpoint join (sep : ascii) (pieces : list string) : string :=
  match pieces with
  | [] => EmptyString
  | [piece] => piece
  | piece :: rest => (piece ++ String sep (join sep rest))%string
  end.

(** A title or text as the forms send it: something in it, and no white
    space around it. *)
Definition trimmedNonEmpty (s : string) : Prop :=
  JS.truthy s = true /\ JSString.trim s = s.

Definition articleSendable (e : Service.SaveEvent) : Prop :=
  match e with
  | Service.InsertArticle title content =>
      trimmedNonEmpty title /\ trimmedNonEmpty content
  end.

Definition uploadSendable (e : Upload.NetEvent) : Prop :=
  match e with
  | Upload.InsertDocument title _ _ => trimmedNonEmpty title
  | _ => True
  end.

(** A small markdown file and a backend that accepts everything. *)
Module SmallUpload.

Definition file : Upload.File.t :=
  Upload.File.mk "notes.md" "text/markdown" 2048.

Definition params : Upload.Params.t :=
  Upload.Params.mk file "Notes" None None None.

Definition form : Upload.Modal.State :=
  Upload.Modal.mkState "  Notes " (Some file) EmptyString "a, b"
    "#FFCDD2" false None.

End SmallUpload.

(** The page shown is one of the document's pages (page 1 when the
    document reports no page). *)
Definition pageInRange (n : Z) (st : Pager.State) : Prop :=
  Pager.numPages st = Some n /\ 1 <= Pager.pageNumber st <= Z.max 1 n.

(** [s] does not begin with white space. *)
Definition startsClean (s : string) : Prop :=
  match s with
  | String c _ => JSString.isSpace c = false
  | EmptyString => True
  end.

(** * Properties *)

(** ** Sorting by date *)

Lemma sortInsert_perm (x : Document) (l : list Document) :
  Permutation (JS.sortInsert byDateDesc x l) (x :: l).
Proof.
  induction l as [|y l IH]; simpl.
  - constructor. constructor.
  - destruct (byDateDesc x y <=? 0).
    + apply Permutation_refl.
    + eapply perm_trans; [apply perm_skip, IH | apply perm_swap].
Qed.

Lemma sort_perm (l : list Document) :
  Permutation (JS.sort byDateDesc l) l.
Proof.
  induction l as [|x l IH]; simpl.
  - constructor.
  - eapply perm_trans; [apply sortInsert_perm | apply perm_skip, IH].
Qed.

Lemma sortInsert_descending (x : Document) (l : list Document) :
  descending l -> descending (JS.sortInsert byDateDesc x l).
Proof.
  unfold descending. induction 1 as [|y l Hl IH Hy]; simpl.
  - repeat constructor.
  - destruct (Z.leb_spec (byDateDesc x y) 0) as [Hle|Hgt].
    + constructor; [constructor; assumption|].
      assert (Hxy : newerFirst x y)
        by (unfold newerFirst, byDateDesc in *; lia).
      constructor; [exact Hxy|].
      eapply List.Forall_impl; [|exact Hy].
      intros z Hz. unfold newerFirst in *. lia.
    + constructor; [exact IH|].
      eapply Permutation_Forall;
        [apply Permutation_sym, sortInsert_perm|].
      constructor; [|exact Hy].
      unfold newerFirst, byDateDesc in *. lia.
Qed.

Lemma sort_descending (l : list Document) :
  descending (JS.sort byDateDesc l).
Proof.
  induction l as [|x l IH]; simpl.
  - constructor.
  - apply sortInsert_descending, IH.
Qed.



Lemma sort_descending_id (l : list Document) :
  descending l -> JS.sort byDateDesc l = l.
Proof.
  unfold descending. induction 1 as [|x l Hl IH Hx]; simpl; [reflexivity|].
  rewrite IH. destruct l as [|y l']; [reflexivity|]. simpl.
  inversion Hx as [|? ? Hxy _]; subst.
  destruct (Z.leb_spec (byDateDesc x y) 0) as [Hle|Hgt]; [reflexivity|].
  unfold newerFirst, byDateDesc in *. lia.
Qed.

Lemma descending_filter (p : Document -> bool) (l : list Document) :
  descending l -> descending (List.filter p l).
Proof.
  unfold descending. induction 1 as [|x l Hl IH Hx]; simpl.
  - constructor.
  - destruct (p x); [|exact IH].
    constructor; [exact IH|].
    apply List.Forall_forall. intros y Hy.
    apply List.filter_In in Hy as [Hy _].
    eapply List.Forall_forall in Hx; eauto.
Qed.

Lemma firstn_In {A : Type} (n : nat) (l : list A) (x : A) :
  In x (firstn n l) -> In x l.
Proof.
  revert n. induction l as [|y l IH]; intros [|n]; simpl; try tauto.
  intros [H|H]; [now left | right; eapply IH, H].
Qed.

Lemma descending_firstn (n : nat) (l : list Document) :
  descending l -> descending (firstn n l).
Proof.
  unfold descending. intros H. revert n.
  induction H as [|x l Hl IH Hx]; intros [|n]; simpl; try constructor.
  - apply IH.
  - apply List.Forall_forall. intros y Hy.
    eapply List.Forall_forall in Hx; [exact Hx|].
    eapply firstn_In, Hy.
Qed.

(** ** The later stages only drop documents *)

Lemma filter_true {A : Type} (l : list A) :
  List.filter (fun _ => true) l = l.
Proof. induction l; simpl; congruence. Qed.

Lemma filter_filter {A : Type} (p q : A -> bool) (l : list A) :
  List.filter q (List.filter p l) = List.filter (fun x => p x && q x) l.
Proof.
  induction l as [|x l IH]; simpl; [reflexivity|].
  destruct (p x); simpl; [destruct (q x)|]; now rewrite IH.
Qed.

Lemma filter_idem {A : Type} (p : A -> bool) (l : list A) :
  List.filter p (List.filter p l) = List.filter p l.
Proof.
  rewrite filter_filter. apply List.filter_ext. intros x. now destruct (p x).
Qed.

Lemma filterDocuments_later (documents : list Document)
    (currentSection : CurrentSection) (searchQuery : string)
    (filters : FilterOptions.t) (today : Z) :
  filterDocuments documents currentSection searchQuery filters today =
  List.filter (laterMatch searchQuery filters today)
    (sectionStage currentSection documents).
Proof.
  unfold filterDocuments, laterMatch.
  unfold timeStage, tagStage, categoryStage, typeStage, searchStage.
  set (l := sectionStage currentSection documents). clearbody l.
  destruct filters as [tys cats tf tgs]; simpl.
  assert (E : forall (c : bool) (p : Document -> bool) (m : list Document),
             (if c then List.filter p m else m) =
             List.filter (fun d => if c then p d else true) m).
  { intros [] p m; [reflexivity | now rewrite filter_true]. }
  rewrite (E (JS.truthy searchQuery)).
  assert (F : forall (s : list string) (p : Document -> bool)
                     (m : list Document),
             match s with [] => m | _ => List.filter p m end =
             List.filter (fun d => match s with [] => true | _ => p d end) m).
  { intros [|] p m; [now rewrite filter_true | reflexivity]. }
  rewrite (F tys), (F cats), (F tgs).
  destruct tf; rewrite !filter_filter; apply List.filter_ext; intros d;
    rewrite ?andb_assoc, ?andb_true_r; reflexivity.
Qed.

Lemma filter_length_le {A : Type} (p : A -> bool) (l : list A) :
  (length (List.filter p l) <= length l)%nat.
Proof.
  induction l as [|x l IH]; simpl; [lia|]. destruct (p x); simpl; lia.
Qed.

(** ** C1: the [recent] section *)


(** Eight documents, two pairs of equal dates: the six most recent, the
    earlier of each pair first. *)
Example recent_of_eight :
  map id
    (filterDocuments
       (map (fun p => Scenario.plain p.1 "pdf" false p.2)
          [("a", 5); ("b", 9); ("c", 5); ("d", 1); ("e", 9); ("f", 7);
           ("g", 2); ("h", 3)]%string)
       recent EmptyString defaultFilters 0) =
  ["b"; "e"; "f"; "a"; "c"; "h"]%string.
Proof. reflexivity. Qed.

(** ** C2: nothing selected, nothing searched *)

(** C2. In section [files], with an empty search text and the default
    filter options, the result is the document list itself, in its
    order. *)
Theorem files_default_identity (documents : list Document) (today : Z) :
  filterDocuments documents files EmptyString defaultFilters today = documents.
Proof. reflexivity. Qed.

(** ** C3: running the filter again *)

Lemma sectionStage_again (currentSection : CurrentSection)
    (p : Document -> bool) (documents : list Document) :
  List.filter p
    (sectionStage currentSection
       (List.filter p (sectionStage currentSection documents))) =
  List.filter p (sectionStage currentSection documents).
Proof.
  destruct currentSection.
  - apply filter_idem.
  - simpl. rewrite !filter_filter. apply List.filter_ext. intros d.
    destruct (String.eqb (type d) "article"), (p d); reflexivity.
  - simpl. rewrite !filter_filter. apply List.filter_ext. intros d.
    destruct (favorite d), (p d); reflexivity.
  - change (sectionStage recent documents)
      with (firstn 6 (JS.sort byDateDesc documents)).
    set (R := List.filter p (firstn 6 (JS.sort byDateDesc documents))).
    assert (HR : descending R)
      by apply descending_filter, descending_firstn, sort_descending.
    assert (HL : (length R <= 6)%nat).
    { unfold R. etransitivity; [apply filter_length_le|].
      rewrite List.length_firstn. lia. }
    change (sectionStage recent R) with (firstn 6 (JS.sort byDateDesc R)).
    rewrite (sort_descending_id R HR), (List.firstn_all2 R HL).
    apply filter_idem.
Qed.

Lemma filterDocuments_idempotent (documents : list Document)
    (currentSection : CurrentSection) (searchQuery : string)
    (filters : FilterOptions.t) (today : Z) :
  filterDocuments
    (filterDocuments documents currentSection searchQuery filters today)
    currentSection searchQuery filters today =
  filterDocuments documents currentSection searchQuery filters today.
Proof.
  rewrite !filterDocuments_later. apply sectionStage_again.
Qed.

Module StoreFacts.
Import Store.

Lemma alloc_owns (h0 h : store) (l : list Document) :
  h0 ⊆ h -> owns h0 (alloc l h) l.
Proof.
  intros Hsub. unfold owns, alloc. simpl.
  assert (Hfresh : h !! fresh (dom h) = None)
    by apply not_elem_of_dom, is_fresh.
  split; [|split].
  - apply insert_subseteq_r; [|exact Hsub].
    eapply lookup_weaken_None; eauto.
  - eapply lookup_weaken_None; eauto.
  - apply lookup_insert_eq.
Qed.

Lemma spread_owns (h : store) (r : ref) (l : list Document) :
  h !! r = Some l -> owns h (spread r h) l.
Proof.
  intros Hr. unfold spread, bind, read. rewrite Hr. simpl.
  now apply alloc_owns.
Qed.

Lemma filterArr_owns (h0 h : store) (r : ref) (l : list Document)
    (p : Document -> bool) :
  owns h0 (r, h) l -> owns h0 (filterArr p r h) (List.filter p l).
Proof.
  intros (Hsub & _ & Hr). simpl in *.
  unfold filterArr, bind, read. rewrite Hr. simpl.
  now apply alloc_owns.
Qed.

Lemma sliceArr_owns (h0 h : store) (r : ref) (l : list Document) (n : nat) :
  owns h0 (r, h) l -> owns h0 (sliceArr n r h) (JS.slice0 n l).
Proof.
  intros (Hsub & _ & Hr). simpl in *.
  unfold sliceArr, bind, read. rewrite Hr. simpl.
  now apply alloc_owns.
Qed.

(** Sorting in place is harmless on an array of one's own. *)
Lemma sortArr_owns (h0 h : store) (r : ref) (l : list Document)
    (cmp : Document -> Document -> Z) :
  owns h0 (r, h) l -> owns h0 (sortArr cmp r h) (JS.sort cmp l).
Proof.
  intros (Hsub & Hnew & Hr). simpl in *.
  unfold sortArr, bind, read, write, ret. rewrite Hr. simpl.
  split; [|split]; simpl.
  - now apply insert_subseteq_r.
  - exact Hnew.
  - apply lookup_insert_eq.
Qed.

Lemma ret_owns (h0 h : store) (r : ref) (l : list Document) :
  owns h0 (r, h) l -> owns h0 (ret r h) l.
Proof. exact (fun H => H). Qed.

Lemma bind_owns (h0 h : store) (c : M ref) (k : ref -> M ref)
    (l l' : list Document) :
  owns h0 (c h) l ->
  (forall r h', owns h0 (r, h') l -> owns h0 (k r h') l') ->
  owns h0 (bind c k h) l'.
Proof.
  intros Hc Hk. unfold bind. destruct (c h) as [r h']. now apply Hk.
Qed.

Lemma filterEffect_owns (h : store) (documents : ref) (D : list Document)
    (currentSection : CurrentSection) (searchQuery : string)
    (filters : FilterOptions.t) (today : Z) :
  h !! documents = Some D ->
  owns h (filterEffect documents currentSection searchQuery filters today h)
    (filterDocuments D currentSection searchQuery filters today).
Proof.
  intros HD. unfold filterEffect, filterDocuments.
  eapply bind_owns; [apply spread_owns, HD|]. intros r0 h0 H0.
  eapply bind_owns with (l := sectionStage currentSection D).
  { destruct currentSection; unfold sectionStage; cbv beta iota.
    - now apply ret_owns.
    - now apply filterArr_owns.
    - now apply filterArr_owns.
    - eapply bind_owns; [apply sortArr_owns, H0|].
      intros r h' H'. now apply sliceArr_owns. }
  intros r1 h1 H1.
  set (l1 := sectionStage currentSection D) in *.
  eapply bind_owns with (l := searchStage searchQuery l1).
  { unfold searchStage. destruct (JS.truthy searchQuery).
    - apply filterArr_owns, H1.
    - apply ret_owns, H1. }
  intros r2 h2 H2.
  set (l2 := searchStage searchQuery l1) in *.
  eapply bind_owns with (l := typeStage filters l2).
  { unfold typeStage. destruct (FilterOptions.types filters).
    - apply ret_owns, H2.
    - apply filterArr_owns, H2. }
  intros r3 h3 H3.
  set (l3 := typeStage filters l2) in *.
  eapply bind_owns with (l := categoryStage filters l3).
  { unfold categoryStage. destruct (FilterOptions.categories filters).
    - apply ret_owns, H3.
    - apply filterArr_owns, H3. }
  intros r4 h4 H4.
  set (l4 := categoryStage filters l3) in *.
  eapply bind_owns with (l := tagStage filters l4).
  { unfold tagStage. destruct (FilterOptions.tags filters).
    - apply ret_owns, H4.
    - apply filterArr_owns, H4. }
  intros r5 h5 H5.
  set (l5 := tagStage filters l4) in *.
  unfold timeStage. destruct (FilterOptions.timeframe filters).
  - apply ret_owns, H5.
  - apply filterArr_owns, H5.
  - apply filterArr_owns, H5.
  - apply filterArr_owns, H5.
Qed.

End StoreFacts.

(** C3. With the section, search text, options and clock fixed, filtering
    the filtered list again gives the same list.  Run over the store of
    arrays from any store in which [documents] holds the list, the effect
    hands over an array with the filtered list, and so does a second run
    on that array; each run leaves every array that existed before it as
    it was, the input among them. *)
Theorem filter_idempotent_no_side_effect (h : Store.store)
    (documents : Store.ref) (D : list Document)
    (currentSection : CurrentSection) (searchQuery : string)
    (filters : FilterOptions.t) (today : Z) :
  h !! documents = Some D ->
  let result := filterDocuments D currentSection searchQuery filters today in
  filterDocuments result currentSection searchQuery filters today = result /\
  let once :=
    Store.filterEffect documents currentSection searchQuery filters today h in
  let twice :=
    Store.filterEffect once.1 currentSection searchQuery filters today once.2 in
  once.2 !! once.1 = Some result /\
  twice.2 !! twice.1 = Some result /\
  h ⊆ once.2 /\ once.2 ⊆ twice.2 /\
  once.2 !! documents = Some D /\
  twice.2 !! documents = Some D /\
  twice.2 !! once.1 = Some result.
Proof.
  intros HD. cbv zeta. split; [apply filterDocuments_idempotent|].
  pose proof (StoreFacts.filterEffect_owns h documents D currentSection
                searchQuery filters today HD) as (H1 & _ & H1r).
  pose proof (StoreFacts.filterEffect_owns _ _ _ currentSection
                searchQuery filters today H1r) as (H2 & _ & H2r).
  rewrite filterDocuments_idempotent in H2r.
  assert (HD1 : (Store.filterEffect documents currentSection searchQuery
                   filters today h).2 !! documents = Some D)
    by (eapply lookup_weaken; eauto).
  repeat split; try assumption; eapply lookup_weaken; eauto.
Qed.

Lemma filter_idempotent_no_side_effect_witness :
  let h : Store.store := {[ 1%positive := Scenario.documents ]} in
  h !! 1%positive = Some Scenario.documents /\
  filterDocuments
    (filterDocuments Scenario.documents recent "pdf" defaultFilters 0)
    recent "pdf" defaultFilters 0 =
  filterDocuments Scenario.documents recent "pdf" defaultFilters 0.
Proof.
  split; [reflexivity|].
  exact (proj1 (filter_idempotent_no_side_effect
                  {[ 1%positive := Scenario.documents ]} 1%positive
                  Scenario.documents recent "pdf" defaultFilters 0
                  eq_refl)).
Defined.

(** ** Membership in the result, one option at a time *)

Lemma arrIncludes_In (arr : list string) (x : string) :
  JS.arrIncludes arr x = true <-> In x arr.
Proof.
  unfold JS.arrIncludes. rewrite List.existsb_exists. split.
  - intros (y & Hy & E). apply String.eqb_eq in E. now subst.
  - intros H. exists x. split; [exact H | apply String.eqb_refl].
Qed.

Lemma In_filterDocuments (documents : list Document)
    (currentSection : CurrentSection) (searchQuery : string)
    (filters : FilterOptions.t) (today : Z) (d : Document) :
  In d (filterDocuments documents currentSection searchQuery filters today) <->
  In d (sectionStage currentSection documents) /\
  laterMatch searchQuery filters today d = true.
Proof. rewrite filterDocuments_later. apply List.filter_In. Qed.

Lemma laterMatch_categories (q : string) (tys cats : list string)
    (tf : Timeframe) (tgs : list string) (today : Z) (d : Document) :
  laterMatch q (FilterOptions.mk tys cats tf tgs) today d =
  laterMatch q (FilterOptions.mk tys [] tf tgs) today d
  && match cats with [] => true | _ => categoryMatch cats d end.
Proof.
  unfold laterMatch. cbn [FilterOptions.types FilterOptions.categories
                          FilterOptions.timeframe FilterOptions.tags].
  btauto.
Qed.


(** ** C5: the "uncategorized" entry of the category filter *)

(** C5, as amended.  When the selected categories contain "uncategorized",
    a document passes the category stage exactly when its category is
    empty or absent, or is one of the selected strings (the string
    "uncategorized" itself included), or "all" is selected; the other
    stages are as without a category selection. *)
Theorem uncategorized_keeps (documents : list Document)
    (currentSection : CurrentSection) (searchQuery : string)
    (tys cats : list string) (tf : Timeframe) (tgs : list string)
    (today : Z) (d : Document) :
  In "uncategorized"%string cats ->
  In d (filterDocuments documents currentSection searchQuery
          (FilterOptions.mk tys cats tf tgs) today) <->
  In d (filterDocuments documents currentSection searchQuery
          (FilterOptions.mk tys [] tf tgs) today) /\
  (JS.truthyOpt (category d) = false \/
   In "all"%string cats \/
   exists c, category d = Some c /\ In c cats).
Proof.
  intros Hunc. rewrite !In_filterDocuments, laterMatch_categories.
  rewrite andb_true_iff.
  assert (Hcat : match cats with [] => true | _ => categoryMatch cats d end
                 = true <->
                 JS.truthyOpt (category d) = false \/
                 In "all"%string cats \/
                 exists c, category d = Some c /\ In c cats).
  { destruct cats as [|c0 cats']; [destruct Hunc|].
    set (cats := c0 :: cats') in *. unfold categoryMatch.
    rewrite !orb_true_iff, andb_true_iff, negb_true_iff, !arrIncludes_In.
    unfold JS.arrIncludesOpt. split.
    - intros [[H|H]|[_ H]]; [right; right | right; left; exact H
                            | left; exact H].
      destruct (category d) as [c|]; [|discriminate].
      exists c. split; [reflexivity | now apply arrIncludes_In].
    - intros [H|[H|(c & E & H)]].
      + right. split; assumption.
      + left. right. exact H.
      + left. left. rewrite E. now apply arrIncludes_In. }
  rewrite Hcat. tauto.
Qed.

Lemma uncategorized_keeps_witness :
  In "uncategorized"%string ["uncategorized"%string] /\
  (In Scenario.doc1
     (filterDocuments Scenario.documents files EmptyString
        (FilterOptions.mk [] ["uncategorized"%string] TfAll []) 0) <->
   In Scenario.doc1
     (filterDocuments Scenario.documents files EmptyString
        (FilterOptions.mk [] [] TfAll []) 0) /\
   (JS.truthyOpt (category Scenario.doc1) = false \/
    In "all"%string ["uncategorized"%string] \/
    exists c, category Scenario.doc1 = Some c /\
              In c ["uncategorized"%string])).
Proof.
  split; [simpl; tauto|].
  apply (uncategorized_keeps Scenario.documents files EmptyString []
           ["uncategorized"%string] TfAll [] 0 Scenario.doc1).
  simpl. tauto.
Defined.

(** C5 as stated fails: with only "uncategorized" selected, a document
    whose category is the non-empty string "uncategorized" is kept. *)
Lemma uncategorized_keeps_namesake :
  let d := Scenario.withCategory (Some "uncategorized"%string) Scenario.doc1 in
  let filters := FilterOptions.mk [] ["uncategorized"%string] TfAll [] in
  JS.truthyOpt (category d) = true /\
  filterDocuments [d] files EmptyString filters 0 = [d].
Proof. split; reflexivity. Qed.

(** ** C9: the time windows *)


(** ** C6: the text search *)

Lemma append_cons (c : ascii) (a b : string) :
  (String c a ++ b)%string = String c (a ++ b)%string.
Proof. reflexivity. Qed.

Lemma prefix_spec (a s : string) :
  String.prefix a s = true <-> exists post, s = (a ++ post)%string.
Proof.
  revert s. induction a as [|c a IH]; intros s.
  - split; [intros _; now exists s | now destruct s].
  - destruct s as [|c' s]; simpl.
    + split; [discriminate | intros (post & E); discriminate].
    + destruct (ascii_dec c c') as [->|Hne].
      * rewrite IH.
        split; intros (post & E); exists post;
          rewrite ?append_cons in *; congruence.
      * split; [discriminate|].
        intros (post & E). rewrite append_cons in E. congruence.
Qed.

Lemma includes_spec (s sub : string) :
  JS.includes s sub = true <->
  exists pre post, s = (pre ++ sub ++ post)%string.
Proof.
  induction s as [|c s IH].
  - destruct sub as [|c' sub]; simpl.
    + split; [intros _; now exists EmptyString, EmptyString | reflexivity].
    + split; [discriminate|]. intros (pre & post & E).
      destruct pre; discriminate.
  - change (JS.includes (String c s) sub)
      with (String.prefix sub (String c s) || JS.includes s sub).
    rewrite orb_true_iff, prefix_spec, IH. split.
    + intros [(post & E)|(pre & post & E)].
      * now exists EmptyString, post.
      * exists (String c pre), post. rewrite append_cons. now rewrite E.
    + intros (pre & post & E). destruct pre as [|c' pre].
      * left. now exists post.
      * right. exists pre, post. rewrite append_cons in E. congruence.
Qed.

Lemma searchMatch_mentions (q : string) (d : Document) :
  JS.truthy q = true -> searchMatch q d = true <-> mentions q d.
Proof.
  intros Hq. unfold searchMatch, mentions, containsCI.
  rewrite !orb_true_iff, List.existsb_exists, includes_spec.
  assert (Hc : match category d with
               | Some c => JS.truthy c && JS.includes (JS.toLowerCase c) q
               | None => false
               end = true <->
               exists c, category d = Some c /\
                 exists pre post, JS.toLowerCase c = (pre ++ q ++ post)%string).
  { destruct (category d) as [c|].
    - rewrite andb_true_iff, includes_spec. split.
      + intros [_ H]. now exists c.
      + intros (c' & E & pre & post & H). injection E as <-.
        split; [|now exists pre, post].
        destruct c; [|reflexivity]. simpl in H.
        destruct pre; [|discriminate]. destruct q; discriminate.
    - split; [discriminate | intros (c & E & _); discriminate]. }
  rewrite Hc.
  assert (Ht : (exists x, In x (tags d) /\
                          JS.includes (JS.toLowerCase x) q = true) <->
               exists tag, In tag (tags d) /\
                 exists pre post,
                   JS.toLowerCase tag = (pre ++ q ++ post)%string).
  { split; intros (x & Hx & H); exists x; (split; [exact Hx|]);
      now apply includes_spec. }
  rewrite Ht. tauto.
Qed.

(** C6, as amended.  For the two documents of the scenario, whatever
    their titles, tags and categories, the search for "pdf" in section
    [files] with the default options returns exactly document 2 if and
    only if "pdf" occurs, letter case aside, in the title, a tag or the
    category of document 2 and in none of those of document 1; the same
    holds for the search text "PDF".  The type is not searched. *)
Theorem search_pdf_scenario (t1 t2 : string) (g1 g2 : list string)
    (c1 c2 : option string) (today : Z) :
  let d1 := Scenario.withCategory c1
              (Scenario.withTags g1 (Scenario.withTitle t1 Scenario.doc1)) in
  let d2 := Scenario.withCategory c2
              (Scenario.withTags g2 (Scenario.withTitle t2 Scenario.doc2)) in
  (filterDocuments [d1; d2] files "pdf" defaultFilters today = [d2] <->
   ~ mentions "pdf" d1 /\ mentions "pdf" d2) /\
  filterDocuments [d1; d2] files "PDF" defaultFilters today =
  filterDocuments [d1; d2] files "pdf" defaultFilters today.
Proof.
  intros d1 d2. split; [|reflexivity].
  change (filterDocuments [d1; d2] files "pdf" defaultFilters today)
    with (List.filter (searchMatch "pdf") [d1; d2]).
  rewrite <- !(searchMatch_mentions "pdf") by reflexivity.
  cbn [List.filter].
  destruct (searchMatch "pdf" d1) eqn:E1, (searchMatch "pdf" d2) eqn:E2.
  - split; [discriminate | intros [H _]; now elim H].
  - split; [|intros [_ H]; discriminate].
    intros H. injection H as H. subst d1 d2. discriminate.
  - split; [intros _; split; [discriminate | reflexivity] | reflexivity].
  - split; [discriminate | intros [_ H]; discriminate].
Qed.

(** C6 as stated fails: the scenario's documents have a type and no text,
    and the search does not look at the type. *)
Lemma search_pdf_ignores_type :
  filterDocuments Scenario.documents files "pdf" defaultFilters 0 = [] /\
  type Scenario.doc2 = "pdf"%string.
Proof. split; reflexivity. Qed.

(** With "PDF" in the title of document 2, it is the result. *)
Example search_pdf_by_title :
  filterDocuments
    [Scenario.withTitle "Notes" Scenario.doc1;
     Scenario.withTitle "Manual.PDF" Scenario.doc2]
    files "pdf" defaultFilters 0 =
  [Scenario.withTitle "Manual.PDF" Scenario.doc2].
Proof. reflexivity. Qed.

(** ** C8: categories and tags offered by the sidebar *)

Lemma newSet_from (l acc : list string) :
  fold_left JS.setAdd l acc =
  acc ++ List.filter (fun y => negb (JS.arrIncludes acc y))
           (firstOccurrences l).
Proof.
  revert acc. induction l as [|x l IH]; intros acc; simpl.
  - now rewrite List.app_nil_r.
  - rewrite IH. unfold JS.setAdd.
    destruct (JS.arrIncludes acc x) eqn:E; simpl.
    + f_equal. rewrite filter_filter. apply List.filter_ext. intros y.
      destruct (String.eqb_spec y x) as [->|Hne]; simpl; [|reflexivity].
      now rewrite E.
    + rewrite <- List.app_assoc. simpl. do 2 f_equal.
      rewrite filter_filter. apply List.filter_ext. intros y.
      unfold JS.arrIncludes. rewrite List.existsb_app. simpl.
      rewrite orb_false_r, negb_orb. apply andb_comm.
Qed.

Lemma newSet_firstOccurrences (l : list string) :
  JS.newSet l = firstOccurrences l.
Proof.
  unfold JS.newSet. rewrite newSet_from. simpl. apply filter_true.
Qed.

Lemma In_firstOccurrences (l : list string) (y : string) :
  In y (firstOccurrences l) <-> In y l.
Proof.
  induction l as [|x l IH]; simpl; [reflexivity|].
  rewrite List.filter_In, IH, negb_true_iff.
  destruct (String.eqb_spec y x) as [->|Hne]; [tauto|].
  split; [intros [H|[H _]]; auto | intros [H|H]; auto].
Qed.

Lemma NoDup_firstOccurrences (l : list string) : List.NoDup (firstOccurrences l).
Proof.
  induction l as [|x l IH]; simpl; constructor.
  - rewrite List.filter_In, String.eqb_refl. intros [_ H]. discriminate.
  - now apply List.NoDup_filter.
Qed.

Lemma In_filterBoolean (arr : list (option string)) (c : string) :
  In c (filterBoolean arr) <-> c <> EmptyString /\ In (Some c) arr.
Proof.
  unfold filterBoolean. rewrite List.in_flat_map. split.
  - intros ([s|] & Hs & H); [|destruct H].
    destruct s; simpl in H; [destruct H|].
    destruct H as [<-|[]]. split; [discriminate | exact Hs].
  - intros [Hne H]. exists (Some c). split; [exact H|].
    destruct c; [congruence | now left].
Qed.

Lemma NoDup_between (a b : string) (m : list string) :
  List.NoDup ([a] ++ m ++ [b]) <->
  a <> b /\ ~ In a m /\ ~ In b m /\ List.NoDup m.
Proof.
  assert (P : Permutation ([a] ++ m ++ [b]) (a :: b :: m)).
  { simpl. apply perm_skip. rewrite Permutation_app_comm. reflexivity. }
  split.
  - intros H. apply (Permutation_NoDup P) in H.
    apply List.NoDup_cons_iff in H as [Ha H].
    apply List.NoDup_cons_iff in H as [Hb H].
    simpl in Ha. repeat split; try assumption; intros ?; apply Ha; auto.
  - intros (Hab & Ha & Hb & Hm).
    apply (Permutation_NoDup (Permutation_sym P)).
    constructor; [|constructor; assumption].
    simpl. intros [E|E]; [now apply Hab | now apply Ha].
Qed.

(** C8, as amended.  [getAvailableCategories] is "all", then the
    non-empty categories of the documents, each once, in the order they
    are first seen, then "uncategorized"; no category occurs twice
    between the two sentinels, and the whole list is free of duplicates
    exactly when no document has "all" or "uncategorized" as its
    category.  [getAvailableTags] is the tags of the documents, each
    once, in the order they are first seen, without duplicates. *)
Theorem available_collections (documents : list Document) :
  let cats := firstOccurrences (filterBoolean (map category documents)) in
  getAvailableCategories documents =
    ["all"%string] ++ cats ++ ["uncategorized"%string] /\
  List.NoDup cats /\
  (forall c, In c cats <->
             c <> EmptyString /\
             exists d, In d documents /\ category d = Some c) /\
  (List.NoDup (getAvailableCategories documents) <->
   forall d, In d documents ->
             category d <> Some "all"%string /\
             category d <> Some "uncategorized"%string) /\
  getAvailableTags documents = firstOccurrences (flat_map tags documents) /\
  List.NoDup (getAvailableTags documents) /\
  (forall t, In t (getAvailableTags documents) <->
             exists d, In d documents /\ In t (tags d)).
Proof.
  intros cats.
  assert (Hcats : forall c, In c cats <->
                    c <> EmptyString /\
                    exists d, In d documents /\ category d = Some c).
  { intros c. unfold cats.
    rewrite In_firstOccurrences, In_filterBoolean, List.in_map_iff.
    split; intros [Hne (d & H1 & H2)]; (split; [exact Hne|]); exists d; tauto. }
  assert (Hget : getAvailableCategories documents =
                 ["all"%string] ++ cats ++ ["uncategorized"%string]).
  { unfold getAvailableCategories. now rewrite newSet_firstOccurrences. }
  assert (Htags : getAvailableTags documents =
                  firstOccurrences (flat_map tags documents)).
  { unfold getAvailableTags. apply newSet_firstOccurrences. }
  split; [exact Hget|].
  split; [apply NoDup_firstOccurrences|].
  split; [exact Hcats|].
  split; [|split; [exact Htags|split]].
  - rewrite Hget, NoDup_between, !Hcats. split.
    + intros (_ & Ha & Hu & _) d Hd.
      split; intros E; [apply Ha | apply Hu];
        (split; [discriminate | now exists d]).
    + intros H. split; [discriminate|].
      split; [|split; [|apply NoDup_firstOccurrences]].
      * intros (_ & d & Hd & E). now destruct (H d Hd) as [H1 _].
      * intros (_ & d & Hd & E). now destruct (H d Hd) as [_ H2].
  - rewrite Htags. apply NoDup_firstOccurrences.
  - intros t. rewrite Htags, In_firstOccurrences, List.in_flat_map.
    reflexivity.
Qed.

(** C8 as stated fails: a document filed under "all" makes "all" occur
    twice. *)
Lemma available_categories_duplicate :
  getAvailableCategories
    [Scenario.withCategory (Some "all"%string) Scenario.doc1] =
  ["all"; "all"; "uncategorized"]%string /\
  ~ List.NoDup (getAvailableCategories
             [Scenario.withCategory (Some "all"%string) Scenario.doc1]).
Proof.
  split; [reflexivity|].
  intros H. apply List.NoDup_cons_iff in H as [H _]. apply H. now left.
Qed.

(** Three documents sharing the tag "design" offer it once. *)
Example available_tags_design :
  getAvailableTags
    [Scenario.withTags ["design"; "ui"]%string Scenario.doc1;
     Scenario.withTags ["design"]%string Scenario.doc2;
     Scenario.withTags ["draft"; "design"]%string Scenario.doc1] =
  ["design"; "ui"; "draft"]%string.
Proof. reflexivity. Qed.

(** ** C10: "All" in the sidebar *)

Module SidebarFacts.
Import Sidebar.

Lemma without_all (l : list string) :
  ~ In "all"%string
      (List.filter (fun t => negb (String.eqb t "all")) l).
Proof.
  rewrite List.filter_In. intros [_ H]. discriminate.
Qed.

(** What a change of one selection leaves in it. *)
Lemma changed_allAlone (x : string) (checked : bool) (prev : list string) :
  allAlone
    (if String.eqb x "all" then (if checked then ["all"%string] else [])
     else
       let updated := List.filter (fun t => negb (String.eqb t "all")) prev in
       if checked then updated ++ [x]
       else List.filter (fun t => negb (String.eqb t x)) updated).
Proof.
  unfold allAlone. destruct (String.eqb_spec x "all") as [->|Hne].
  - destruct checked; auto.
  - right. right. cbv zeta. destruct checked.
    + rewrite List.in_app_iff. intros [H|[H|[]]].
      * now apply without_all in H.
      * now apply Hne.
    + rewrite List.filter_In. intros [H _]. now apply without_all in H.
Qed.

Lemma handleTypeChange_types (typeId : string) (checked : bool)
    (prev : FilterOptions.t) :
  FilterOptions.types (handleTypeChange typeId checked prev) =
  (if String.eqb typeId "all" then (if checked then ["all"%string] else [])
   else
     let updated :=
       List.filter (fun t => negb (String.eqb t "all"))
         (FilterOptions.types prev) in
     if checked then updated ++ [typeId]
     else List.filter (fun t => negb (String.eqb t typeId)) updated) /\
  FilterOptions.categories (handleTypeChange typeId checked prev) =
  FilterOptions.categories prev.
Proof.
  unfold handleTypeChange.
  destruct (String.eqb typeId "all"), checked; split; reflexivity.
Qed.

Lemma handleCategoryChange_categories (category : string) (checked : bool)
    (prev : FilterOptions.t) :
  FilterOptions.categories (handleCategoryChange category checked prev) =
  (if String.eqb category "all"
   then (if checked then ["all"%string] else [])
   else
     let updated :=
       List.filter (fun t => negb (String.eqb t "all"))
         (FilterOptions.categories prev) in
     if checked then updated ++ [category]
     else List.filter (fun t => negb (String.eqb t category)) updated) /\
  FilterOptions.types (handleCategoryChange category checked prev) =
  FilterOptions.types prev.
Proof.
  unfold handleCategoryChange.
  destruct (String.eqb category "all"), checked; split; reflexivity.
Qed.

Lemma step_allAlone (filters : FilterOptions.t) (e : Event) :
  allAlone (FilterOptions.types filters) ->
  allAlone (FilterOptions.categories filters) ->
  allAlone (FilterOptions.types (step filters e)) /\
  allAlone (FilterOptions.categories (step filters e)).
Proof.
  intros Ht Hc. destruct e as [typeId checked|cat checked|timeId|tag|]; simpl.
  - destruct (handleTypeChange_types typeId checked filters) as [-> ->].
    split; [apply changed_allAlone | exact Hc].
  - destruct (handleCategoryChange_categories cat checked filters) as [-> ->].
    split; [exact Ht | apply changed_allAlone].
  - split; assumption.
  - unfold handleTagClick.
    destruct (JS.arrIncludes (FilterOptions.tags filters) tag);
      split; assumption.
  - split; left; reflexivity.
Qed.

Lemma fold_allAlone (events : list Event) (filters : FilterOptions.t) :
  allAlone (FilterOptions.types filters) ->
  allAlone (FilterOptions.categories filters) ->
  allAlone (FilterOptions.types (fold_left step events filters)) /\
  allAlone (FilterOptions.categories (fold_left step events filters)).
Proof.
  revert filters. induction events as [|e events IH]; intros filters Ht Hc.
  - split; assumption.
  - simpl. destruct (step_allAlone filters e Ht Hc) as [Ht' Hc'].
    now apply IH.
Qed.

End SidebarFacts.

(** C10. After any sequence of sidebar events from the initial filters,
    the selected types are empty, exactly "all", or free of "all", and
    so are the selected categories.  Ticking "all" leaves "all" alone;
    ticking any other entry selects it and leaves no "all". *)
Theorem sidebar_all_alone (events : list Sidebar.Event) :
  Sidebar.allAlone (FilterOptions.types (Sidebar.run events)) /\
  Sidebar.allAlone (FilterOptions.categories (Sidebar.run events)) /\
  (forall prev,
      FilterOptions.types (Sidebar.handleTypeChange "all" true prev) =
      ["all"%string] /\
      FilterOptions.categories (Sidebar.handleCategoryChange "all" true prev) =
      ["all"%string]) /\
  (forall x prev,
      x = "all"%string \/
      (let after := FilterOptions.types (Sidebar.handleTypeChange x true prev) in
       In x after /\ ~ In "all"%string after) /\
      (let after :=
         FilterOptions.categories (Sidebar.handleCategoryChange x true prev) in
       In x after /\ ~ In "all"%string after)).
Proof.
  destruct (SidebarFacts.fold_allAlone events defaultFilters) as [Ht Hc];
    [left; reflexivity | left; reflexivity |].
  split; [exact Ht|]. split; [exact Hc|]. split.
  - intros prev. split; reflexivity.
  - intros x prev. destruct (String.eqb_spec x "all") as [E|Hne];
      [left; exact E | right].
    destruct (SidebarFacts.handleTypeChange_types x true prev) as [Et _].
    destruct (SidebarFacts.handleCategoryChange_categories x true prev)
      as [Ec _].
    apply String.eqb_neq in Hne. rewrite Hne in Et, Ec. cbv zeta in *.
    rewrite Et, Ec. rewrite !List.in_app_iff.
    split; (split; [right; now left|]);
      intros [H|[H|[]]];
      try (now apply SidebarFacts.without_all in H);
      subst x; discriminate.
Qed.

(** ** C4: the size limit of uploads *)

Module UploadFacts.
Import Upload Upload.Modal.

Lemma uploadFile_trace (be : Backend) (params : Params.t) :
  File.size (Params.file params) <= MAX_FILE_SIZE ->
  Forall withinLimit (uploadFile be params).1.
Proof.
  intros Hsize. unfold uploadFile.
  destruct (detectType _ _) as [ty bg].
  destruct (uploadError be); [|destruct (insertResult be)]; simpl;
    repeat constructor; exact Hsize.
Qed.

Lemma handleSubmit_within (be : Backend) (st : State) :
  selectedWithinLimit st ->
  Forall withinLimit (handleSubmit be st).1.1 /\
  selectedWithinLimit (handleSubmit be st).1.2.
Proof.
  unfold selectedWithinLimit, handleSubmit. intros Hst.
  destruct (selectedFile st) as [file|] eqn:Hsel.
  - destruct (negb (JS.truthy (JSString.trim (title st)))).
    + simpl. rewrite Hsel. split; [constructor | exact Hst].
    + match goal with |- context [uploadFile be ?p] =>
        pose proof (uploadFile_trace be p Hst) as Htr;
        destruct (uploadFile be p) as [tr [message|result]]
      end; simpl in *.
      * rewrite Hsel. split; assumption.
      * split; [assumption | exact I].
  - simpl. rewrite Hsel. split; [constructor | exact I].
Qed.

Lemma onDrop_within (acceptedFiles : list File.t) (st : State) :
  selectedWithinLimit st -> selectedWithinLimit (onDrop acceptedFiles st).
Proof.
  unfold selectedWithinLimit, onDrop. intros Hst.
  destruct acceptedFiles as [|file rest]; [exact Hst|].
  destruct (Z.ltb_spec MAX_FILE_SIZE (File.size file)); simpl;
    [exact Hst | lia].
Qed.

Lemma step_within (a : Action) (st : State) :
  selectedWithinLimit st ->
  Forall withinLimit (step a st).1 /\ selectedWithinLimit (step a st).2.
Proof.
  intros Hst. destruct a; simpl;
    try (split; [constructor | exact Hst]).
  - split; [constructor | now apply onDrop_within].
  - split; [constructor | exact I].
  - pose proof (handleSubmit_within be st Hst) as H.
    destruct (handleSubmit be st) as [[tr st'] doc]. exact H.
  - split; [constructor | exact I].
Qed.

Lemma run_within (actions : list Action) (st : State) :
  selectedWithinLimit st -> Forall withinLimit (run actions st).1.
Proof.
  revert st. induction actions as [|a actions IH]; intros st Hst; simpl.
  - constructor.
  - pose proof (step_within a st Hst) as [Htr Hst'].
    destruct (step a st) as [tr st1]. simpl in *.
    specialize (IH st1 Hst').
    destruct (run actions st1) as [tr' st2]. simpl in *.
    apply List.Forall_app. split; assumption.
Qed.

End UploadFacts.

(** C4, as amended.  The limit of 10 MiB is enforced by the form, when a
    file is chosen: [onDrop] keeps the previous selection and sets the
    message "File exceeds the 10MB limit" for a larger file.  So whatever
    the user does in the form and whatever the backend answers, no file
    above the limit is sent to storage, and submitting with no file
    selected sends nothing. *)
Theorem upload_limit_in_form (actions : list Upload.Modal.Action) :
  Forall Upload.withinLimit
    (Upload.Modal.run actions Upload.Modal.initial).1 /\
  (forall file rest st,
      let st' := Upload.Modal.onDrop (file :: rest) st in
      if Upload.MAX_FILE_SIZE <? Upload.File.size file then
        Upload.Modal.selectedFile st' = Upload.Modal.selectedFile st /\
        Upload.Modal.error st' = Some "File exceeds the 10MB limit"%string
      else
        Upload.Modal.selectedFile st' = Some file /\
        Upload.Modal.error st' = None) /\
  (forall be st,
      Upload.Modal.handleSubmit be (Upload.Modal.setSelectedFile None st) =
      ([], Upload.Modal.setError (Some "Title and file are required"%string)
             (Upload.Modal.setSelectedFile None st), None)) /\
  Upload.MAX_FILE_SIZE = 10485760.
Proof.
  split; [apply UploadFacts.run_within; exact I|].
  split; [|split; [reflexivity | reflexivity]].
  intros file rest st. simpl.
  destruct (Upload.MAX_FILE_SIZE <? Upload.File.size file);
    split; reflexivity.
Qed.

(** C4 as stated fails: [uploadFile] itself sends an 11 MiB file to
    storage, inserts the record and returns the document. *)
Lemma uploadFile_sends_big_file :
  Upload.MAX_FILE_SIZE < Upload.File.size BigUpload.file /\
  (Upload.uploadFile BigUpload.backend BigUpload.params).1 =
    [Upload.StorageUpload "1700000000000_abc.pdf" BigUpload.file;
     Upload.InsertDocument "Scan" "pdf" "1700000000000_abc.pdf"] /\
  exists doc,
    (Upload.uploadFile BigUpload.backend BigUpload.params).2 = inr doc.
Proof.
  split; [reflexivity|]. split; [reflexivity|]. eexists. reflexivity.
Qed.

(** ** C7: the preview mode *)








(** * More properties of the filter *)

Lemma laterMatch_tags (q : string) (tys cats : list string)
    (tf : Timeframe) (tgs : list string) (today : Z) (d : Document) :
  laterMatch q (FilterOptions.mk tys cats tf tgs) today d =
  laterMatch q (FilterOptions.mk tys cats tf []) today d
  && match tgs with [] => true | _ => tagMatch tgs d end.
Proof.
  unfold laterMatch. cbn [FilterOptions.types FilterOptions.categories
                          FilterOptions.timeframe FilterOptions.tags].
  btauto.
Qed.

Lemma laterMatch_types (q : string) (tys cats : list string)
    (tf : Timeframe) (tgs : list string) (today : Z) (d : Document) :
  laterMatch q (FilterOptions.mk tys cats tf tgs) today d =
  laterMatch q (FilterOptions.mk [] cats tf tgs) today d
  && match tys with [] => true | _ => typeMatch tys d end.
Proof.
  unfold laterMatch. cbn [FilterOptions.types FilterOptions.categories
                          FilterOptions.timeframe FilterOptions.tags].
  btauto.
Qed.

(** X1.  A document passes the tag stage exactly when no tag is selected or
    one of its tags is selected: any one suffices. *)
Theorem tag_filter_any (documents : list Document)
    (currentSection : CurrentSection) (searchQuery : string)
    (tys cats : list string) (tf : Timeframe) (tgs : list string)
    (today : Z) (d : Document) :
  In d (filterDocuments documents currentSection searchQuery
          (FilterOptions.mk tys cats tf tgs) today) <->
  In d (filterDocuments documents currentSection searchQuery
          (FilterOptions.mk tys cats tf []) today) /\
  (tgs = [] \/ exists tag, In tag (tags d) /\ In tag tgs).
Proof.
  rewrite !In_filterDocuments, laterMatch_tags, andb_true_iff.
  assert (H : match tgs with [] => true | _ => tagMatch tgs d end = true <->
              tgs = [] \/ exists tag, In tag (tags d) /\ In tag tgs).
  { destruct tgs as [|t0 tgs'].
    - split; [now left | reflexivity].
    - unfold tagMatch. rewrite List.existsb_exists. split.
      + intros (tag & Hin & Hsel). right. exists tag.
        split; [exact Hin | now apply arrIncludes_In].
      + intros [E|(tag & Hin & Hsel)]; [discriminate|].
        exists tag. split; [exact Hin | now apply arrIncludes_In]. }
  rewrite H. tauto.
Qed.

(** X2.  A document passes the type stage exactly when no type is selected,
    its type is selected, or "all" is selected. *)
Theorem type_filter_all (documents : list Document)
    (currentSection : CurrentSection) (searchQuery : string)
    (tys cats : list string) (tf : Timeframe) (tgs : list string)
    (today : Z) (d : Document) :
  In d (filterDocuments documents currentSection searchQuery
          (FilterOptions.mk tys cats tf tgs) today) <->
  In d (filterDocuments documents currentSection searchQuery
          (FilterOptions.mk [] cats tf tgs) today) /\
  (tys = [] \/ In (type d) tys \/ In "all"%string tys).
Proof.
  rewrite !In_filterDocuments, laterMatch_types, andb_true_iff.
  assert (H : match tys with [] => true | _ => typeMatch tys d end = true <->
              tys = [] \/ In (type d) tys \/ In "all"%string tys).
  { destruct tys as [|t0 tys'].
    - split; [now left | reflexivity].
    - unfold typeMatch. rewrite orb_true_iff, !arrIncludes_In. split.
      + intros H. now right.
      + intros [E|H]; [discriminate | exact H]. }
  rewrite H. tauto.
Qed.

Lemma filter_sublist {A : Type} (p : A -> bool) (l : list A) :
  List.filter p l `sublist_of` l.
Proof.
  induction l as [|x l IH]; simpl; [constructor|].
  destruct (p x); [now apply sublist_skip | now apply sublist_cons].
Qed.

(** X3.  The result is made of input documents only, each at most as often
    as in the input, and in the order of the input (for [recent], in the
    order of the input sorted by date). *)
Theorem filter_result_sublist (documents : list Document)
    (currentSection : CurrentSection) (searchQuery : string)
    (filters : FilterOptions.t) (today : Z) :
  let result :=
    filterDocuments documents currentSection searchQuery filters today in
  result `sublist_of`
    (match currentSection with
     | recent => JS.sort byDateDesc documents
     | _ => documents
     end) /\
  (forall d, In d result -> In d documents) /\
  (length result <= length documents)%nat.
Proof.
  cbv zeta. rewrite filterDocuments_later.
  assert (S : sectionStage currentSection documents `sublist_of`
              match currentSection with
              | recent => JS.sort byDateDesc documents
              | _ => documents
              end).
  { destruct currentSection; unfold sectionStage; cbv beta iota.
    - reflexivity.
    - apply filter_sublist.
    - apply filter_sublist.
    - apply sublist_take. }
  assert (R : List.filter (laterMatch searchQuery filters today)
                (sectionStage currentSection documents) `sublist_of`
              match currentSection with
              | recent => JS.sort byDateDesc documents
              | _ => documents
              end).
  { etransitivity; [apply filter_sublist | exact S]. }
  assert (P : Permutation
                match currentSection with
                | recent => JS.sort byDateDesc documents
                | _ => documents
                end documents).
  { destruct currentSection; try reflexivity. apply sort_perm. }
  split; [exact R|]. split.
  - intros d Hd. apply (Permutation_in _ P).
    apply list_elem_of_In. eapply elem_of_sublist; [|exact R].
    now apply list_elem_of_In.
  - rewrite <- (Permutation_length P). now apply sublist_length.
Qed.

(** X4.  In the sections without a cut, a document's fate does not depend on
    the others: the result of a concatenation is the concatenation of
    the results. *)
Theorem filter_distributes_over_append (d1 d2 : list Document)
    (searchQuery : string) (filters : FilterOptions.t) (today : Z) :
  let f s l := filterDocuments l s searchQuery filters today in
  f files (d1 ++ d2) = f files d1 ++ f files d2 /\
  f articles (d1 ++ d2) = f articles d1 ++ f articles d2 /\
  f favorites (d1 ++ d2) = f favorites d1 ++ f favorites d2.
Proof.
  cbv beta zeta. rewrite !filterDocuments_later.
  unfold sectionStage; cbv beta iota.
  rewrite !List.filter_app. repeat split.
Qed.

(** [recent] does depend on the others: a seventh, older document is
    cut. *)
Example recent_does_not_distribute :
  let d (t : Z) := Scenario.withDate t Scenario.doc2 in
  let six := map d [9; 8; 7; 6; 5; 4] in
  filterDocuments ([d 1] ++ six) recent EmptyString defaultFilters 0 = six /\
  filterDocuments [d 1] recent EmptyString defaultFilters 0 = [d 1].
Proof. split; reflexivity. Qed.

Lemma truthy_toLowerCase (q : string) :
  JS.truthy (JS.toLowerCase q) = JS.truthy q.
Proof. now destruct q. Qed.

(** X5.  The letter case of the search text does not matter: two search
    texts with the same lower-case form give the same result. *)
Theorem search_ignores_query_case (q1 q2 : string)
    (documents : list Document) (currentSection : CurrentSection)
    (filters : FilterOptions.t) (today : Z) :
  JS.toLowerCase q1 = JS.toLowerCase q2 ->
  filterDocuments documents currentSection q1 filters today =
  filterDocuments documents currentSection q2 filters today.
Proof.
  intros E. unfold filterDocuments, searchStage.
  rewrite <- (truthy_toLowerCase q1), <- (truthy_toLowerCase q2), E.
  reflexivity.
Qed.

Lemma search_ignores_query_case_witness :
  JS.toLowerCase "Pdf" = JS.toLowerCase "pDF" /\
  filterDocuments Scenario.documents files "Pdf" defaultFilters 0 =
  filterDocuments Scenario.documents files "pDF" defaultFilters 0.
Proof.
  split; [reflexivity|].
  apply (search_ignores_query_case "Pdf" "pDF"). reflexivity.
Defined.

Lemma append_assoc (a b c : string) :
  ((a ++ b) ++ c)%string = (a ++ (b ++ c))%string.
Proof.
  induction a as [|x a IH]; [reflexivity|].
  rewrite !append_cons. now rewrite IH.
Qed.






(** X7.  On a list that is already most recent first, as [listDocuments]
    asks the database for, [recent] is the first six documents. *)
Theorem recent_of_descending (documents : list Document) (today : Z) :
  descending documents ->
  filterDocuments documents recent EmptyString defaultFilters today =
  firstn 6 documents.
Proof.
  intros H.
  change (filterDocuments documents recent EmptyString defaultFilters today)
    with (firstn 6 (JS.sort byDateDesc documents)).
  now rewrite sort_descending_id.
Qed.

Lemma recent_of_descending_witness :
  descending [Scenario.doc2; Scenario.doc1] /\
  filterDocuments [Scenario.doc2; Scenario.doc1] recent EmptyString
    defaultFilters 0 =
  firstn 6 [Scenario.doc2; Scenario.doc1].
Proof.
  assert (H : descending [Scenario.doc2; Scenario.doc1]).
  { repeat constructor. unfold newerFirst. simpl. lia. }
  split; [exact H|].
  exact (recent_of_descending [Scenario.doc2; Scenario.doc1] 0 H).
Defined.

(** * The document list of [App] *)

Module AppFacts.
Import App.

Lemma withFavorite_same (d : Document) : withFavorite (favorite d) d = d.
Proof. now destruct d. Qed.

Lemma unique_id (docs : list Document) (d x : Document) :
  List.NoDup (map id docs) -> In d docs -> In x docs -> id x = id d -> x = d.
Proof.
  induction docs as [|y docs IH]; simpl; [tauto|].
  intros Hnd Hd Hx E. apply List.NoDup_cons_iff in Hnd as [Hy Hnd].
  destruct Hd as [->|Hd], Hx as [->|Hx]; try reflexivity.
  - elim Hy. rewrite <- E. now apply List.in_map.
  - elim Hy. rewrite E. now apply List.in_map.
  - now apply IH.
Qed.

End AppFacts.

(** X8.  With distinct ids in the list, clicking the heart of a document
    twice (the second click on the document as it is then shown), both
    updates accepted by the backend, gives back the list. *)
Theorem favorite_click_twice (docs : list Document) (d : Document) :
  List.NoDup (map id docs) ->
  In d docs ->
  let shown := App.withFavorite (negb (favorite d)) d in
  In shown (App.clickFavorite None d docs) /\
  App.clickFavorite None shown (App.clickFavorite None d docs) = docs.
Proof.
  intros Hnd Hd shown. unfold App.clickFavorite. simpl.
  split.
  - apply List.in_map_iff. exists d. split; [|exact Hd].
    now rewrite String.eqb_refl.
  - rewrite List.map_map. rewrite <- (List.map_id docs) at 2.
    apply List.map_ext_in. intros x Hx.
    destruct (String.eqb_spec (id x) (id d)) as [E|Hne].
    + rewrite (AppFacts.unique_id docs d x Hnd Hd Hx E).
      simpl. rewrite String.eqb_refl, negb_involutive.
      now destruct d.
    + apply String.eqb_neq in Hne. now rewrite Hne.
Qed.

Lemma favorite_click_twice_witness :
  List.NoDup (map id Scenario.documents) /\
  In Scenario.doc2 Scenario.documents /\
  App.clickFavorite None (App.withFavorite true Scenario.doc2)
    (App.clickFavorite None Scenario.doc2 Scenario.documents) =
  Scenario.documents.
Proof.
  assert (Hnd : List.NoDup (map id Scenario.documents)).
  { simpl. repeat constructor; simpl; [|tauto].
    intros [H|[]]. discriminate. }
  assert (Hd : In Scenario.doc2 Scenario.documents) by (right; now left).
  split; [exact Hnd|]. split; [exact Hd|].
  exact (proj2 (favorite_click_twice Scenario.documents Scenario.doc2 Hnd Hd)).
Defined.

(** X9.  A favorite update touches the favorite flag only, and only of the
    documents with the given id; when the backend refuses, the list
    stays as it was. *)
Theorem toggle_favorite_effect (result : option bool) (id0 : string)
    (isFavorite : bool) (docs : list Document) :
  let docs' := App.handleToggleFavorite result id0 isFavorite docs in
  map (App.withFavorite false) docs' = map (App.withFavorite false) docs /\
  match result with
  | Some true =>
      Forall (fun d' => if String.eqb (id d') id0
                        then favorite d' = isFavorite else In d' docs) docs'
  | _ => docs' = docs
  end.
Proof.
  cbv zeta. unfold App.handleToggleFavorite.
  destruct result as [[|]|]; try (split; reflexivity).
  split.
  - rewrite List.map_map. apply List.map_ext. intros x.
    now destruct (String.eqb (id x) id0).
  - apply List.Forall_forall. intros d' Hd'.
    apply List.in_map_iff in Hd' as (x & <- & Hx).
    destruct (String.eqb (id x) id0) eqn:E; simpl; rewrite E;
      [reflexivity | exact Hx].
Qed.

(** X10.  The bin button: nothing is sent without confirmation; the list
    loses the documents with that id exactly when the row was found and
    the record was deleted, whether or not the stored file could be
    removed; otherwise the list stays as it was. *)
Theorem click_delete_outcomes (confirmed : bool)
    (be : Service.DeleteBackend) (document : Document)
    (docs : list Document) :
  let '(events, docs') := App.clickDelete confirmed be document docs in
  let done :=
    confirmed
    && match Service.fetchRow be with inr _ => true | inl _ => false end
    && match Service.deleteError be with None => true | Some _ => false end in
  (events = [] <-> confirmed = false) /\
  (if done
   then forall d, In d docs' <-> In d docs /\ id d <> id document
   else docs' = docs) /\
  docs' `sublist_of` docs /\
  (forall storageError',
      App.clickDelete confirmed
        (Service.mkDeleteBackend (Service.fetchRow be) storageError'
           (Service.deleteError be)) document docs =
      (events, docs')).
Proof.
  unfold App.clickDelete, Service.deleteDocument.
  destruct confirmed; simpl.
  2: { repeat split; reflexivity. }
  destruct (Service.fetchRow be) as [message|path]; simpl.
  { repeat split; try reflexivity; discriminate. }
  destruct (Service.deleteError be) as [message|]; simpl.
  { repeat split; try reflexivity; discriminate. }
  split; [split; discriminate|].
  split; [|split; [apply filter_sublist|reflexivity]].
  intros d. rewrite List.filter_In, negb_true_iff, String.eqb_neq.
  reflexivity.
Qed.

(** The stored file cannot be removed, the record goes all the same. *)
Example delete_despite_storage_error :
  App.clickDelete true
    (Service.mkDeleteBackend (inr (Some "a.pdf"%string))
       (Some "storage is down"%string) None)
    Scenario.doc2 Scenario.documents =
  ([Service.SelectStoragePath "2"; Service.RemoveBlob "a.pdf";
    Service.DeleteRecord "2"], [Scenario.doc1]).
Proof. reflexivity. Qed.

(** X11.  Adding a document whose id is new and deleting it again gives back
    the list. *)
Theorem upload_then_delete (newDocument : Document) (docs : list Document) :
  (forall d, In d docs -> id d <> id newDocument) ->
  App.handleDeleteDocument (inr true) (id newDocument)
    (App.handleUpload newDocument docs) = docs /\
  App.handleDeleteDocument (inr true) (id newDocument)
    (App.handleSaveArticle newDocument docs) = docs.
Proof.
  intros Hnew.
  assert (H : List.filter
                (fun doc => negb (String.eqb (id doc) (id newDocument)))
                docs = docs).
  { induction docs as [|x docs IH]; [reflexivity|]. simpl.
    destruct (String.eqb_spec (id x) (id newDocument)) as [E|_]; simpl.
    - elim (Hnew x); [now left | exact E].
    - rewrite IH; [reflexivity|]. intros d Hd. apply Hnew. now right. }
  unfold App.handleDeleteDocument, App.handleUpload, App.handleSaveArticle.
  simpl. rewrite String.eqb_refl. simpl. now rewrite H.
Qed.

Lemma upload_then_delete_witness :
  (forall d, In d [Scenario.doc1] -> id d <> id Scenario.doc2) /\
  App.handleDeleteDocument (inr true) (id Scenario.doc2)
    (App.handleUpload Scenario.doc2 [Scenario.doc1]) = [Scenario.doc1].
Proof.
  assert (H : forall d, In d [Scenario.doc1] -> id d <> id Scenario.doc2).
  { intros d [<-|[]]. discriminate. }
  split; [exact H|].
  exact (proj1 (upload_then_delete Scenario.doc2 [Scenario.doc1] H)).
Defined.

(** * More of the sidebar *)

(** X12.  Clicking a tag selects it when it was not selected and deselects it
    when it was; the other tags stay. *)
Theorem tag_click_toggles (tag t : string) (prev : FilterOptions.t) :
  In t (FilterOptions.tags (Sidebar.handleTagClick tag prev)) <->
  (t <> tag /\ In t (FilterOptions.tags prev)) \/
  (t = tag /\ ~ In tag (FilterOptions.tags prev)).
Proof.
  unfold Sidebar.handleTagClick.
  destruct (JS.arrIncludes (FilterOptions.tags prev) tag) eqn:E; simpl.
  - apply arrIncludes_In in E.
    rewrite List.filter_In, negb_true_iff, String.eqb_neq. tauto.
  - assert (Hn : ~ In tag (FilterOptions.tags prev)).
    { intros H. apply arrIncludes_In in H. congruence. }
    rewrite List.in_app_iff. simpl.
    destruct (String.eqb_spec t tag) as [->|Hne]; [tauto|].
    split; [intros [H|[H|[]]]; [tauto | congruence] | tauto].
Qed.

Module SidebarMore.
Import Sidebar.

Lemma NoDup_snoc (l : list string) (x : string) :
  List.NoDup l -> ~ In x l -> List.NoDup (l ++ [x]).
Proof.
  intros Hl Hx. apply (Permutation_NoDup (l := x :: l)).
  - rewrite Permutation_app_comm. reflexivity.
  - now constructor.
Qed.

Lemma step_tags_NoDup (filters : FilterOptions.t) (e : Event) :
  List.NoDup (FilterOptions.tags filters) ->
  List.NoDup (FilterOptions.tags (step filters e)).
Proof.
  intros H. destruct e as [typeId checked|cat checked|timeId|tag|]; simpl.
  - unfold handleTypeChange.
    destruct (String.eqb typeId "all"), checked; exact H.
  - unfold handleCategoryChange.
    destruct (String.eqb cat "all"), checked; exact H.
  - exact H.
  - unfold handleTagClick.
    destruct (JS.arrIncludes (FilterOptions.tags filters) tag) eqn:E; simpl.
    + now apply List.NoDup_filter.
    + apply NoDup_snoc; [exact H|]. intros Hin.
      apply arrIncludes_In in Hin. congruence.
  - constructor.
Qed.

(** What a checkbox change leaves in a duplicate-free selection. *)
Lemma changed_NoDup (x : string) (prev : list string) :
  List.NoDup prev ->
  List.NoDup
    (if String.eqb x "all"
     then (if negb (JS.arrIncludes prev x) then ["all"%string] else [])
     else
       let updated := List.filter (fun t => negb (String.eqb t "all")) prev in
       if negb (JS.arrIncludes prev x) then updated ++ [x]
       else List.filter (fun t => negb (String.eqb t x)) updated).
Proof.
  intros H. destruct (String.eqb x "all").
  - destruct (negb _); repeat constructor. simpl. tauto.
  - cbv zeta. destruct (JS.arrIncludes prev x) eqn:E; simpl.
    + now apply List.NoDup_filter, List.NoDup_filter.
    + apply NoDup_snoc; [now apply List.NoDup_filter|].
      rewrite List.filter_In. intros [Hin _].
      apply arrIncludes_In in Hin. congruence.
Qed.

Lemma step_selection_NoDup (filters : FilterOptions.t) (e : Event) :
  Checkbox.fromCheckbox filters e ->
  List.NoDup (FilterOptions.types filters) ->
  List.NoDup (FilterOptions.categories filters) ->
  List.NoDup (FilterOptions.types (step filters e)) /\
  List.NoDup (FilterOptions.categories (step filters e)).
Proof.
  intros He Ht Hc.
  destruct e as [typeId checked|cat checked|timeId|tag|]; simpl in *.
  - destruct (SidebarFacts.handleTypeChange_types typeId checked filters)
      as [-> ->].
    split; [|exact Hc]. subst checked. now apply changed_NoDup.
  - destruct (SidebarFacts.handleCategoryChange_categories cat checked
                filters) as [-> ->].
    split; [exact Ht|]. subst checked. now apply changed_NoDup.
  - split; assumption.
  - unfold handleTagClick.
    destruct (JS.arrIncludes (FilterOptions.tags filters) tag);
      split; assumption.
  - split; constructor.
Qed.

End SidebarMore.

(** X13.  After any sequence of sidebar events the selected tags are free of
    duplicates. *)
Theorem sidebar_tags_no_duplicates (events : list Sidebar.Event) :
  List.NoDup (FilterOptions.tags (Sidebar.run events)).
Proof.
  unfold Sidebar.run.
  assert (H : List.NoDup (FilterOptions.tags defaultFilters)) by constructor.
  revert H. generalize defaultFilters.
  induction events as [|e events IH]; intros filters H; simpl; [exact H|].
  apply IH. now apply SidebarMore.step_tags_NoDup.
Qed.

(** X14.  When every type and category change comes from a checkbox, the
    selected types and the selected categories stay free of
    duplicates. *)
Theorem sidebar_selection_no_duplicates (events : list Sidebar.Event) :
  Checkbox.fromCheckboxes defaultFilters events ->
  List.NoDup (FilterOptions.types (Sidebar.run events)) /\
  List.NoDup (FilterOptions.categories (Sidebar.run events)).
Proof.
  unfold Sidebar.run.
  assert (Ht : List.NoDup (FilterOptions.types defaultFilters))
    by constructor.
  assert (Hc : List.NoDup (FilterOptions.categories defaultFilters))
    by constructor.
  revert Ht Hc. generalize defaultFilters.
  induction events as [|e events IH]; intros filters Ht Hc Hev; simpl.
  - split; assumption.
  - destruct Hev as [He Hrest].
    destruct (SidebarMore.step_selection_NoDup filters e He Ht Hc)
      as [Ht' Hc'].
    now apply IH.
Qed.

Lemma sidebar_selection_no_duplicates_witness :
  let events :=
    [Sidebar.TypeChange "pdf" true; Sidebar.TypeChange "image" true;
     Sidebar.TypeChange "pdf" false; Sidebar.CategoryChange "all" true] in
  Checkbox.fromCheckboxes defaultFilters events /\
  List.NoDup (FilterOptions.types (Sidebar.run events)).
Proof.
  assert (H : Checkbox.fromCheckboxes defaultFilters
                [Sidebar.TypeChange "pdf" true;
                 Sidebar.TypeChange "image" true;
                 Sidebar.TypeChange "pdf" false;
                 Sidebar.CategoryChange "all" true]).
  { simpl. repeat split. }
  split; [exact H|].
  exact (proj1 (sidebar_selection_no_duplicates _ H)).
Defined.

(** Without that, the handlers do duplicate an entry ticked twice. *)
Example type_ticked_twice :
  FilterOptions.types
    (Sidebar.run [Sidebar.TypeChange "pdf" true;
                  Sidebar.TypeChange "pdf" true]) =
  ["pdf"; "pdf"]%string.
Proof. reflexivity. Qed.

(** * More of the upload path *)


Module UploadMore.
Import Upload.

Lemma detectType_cases (f : File.t) (bg : option string) :
  In (detectType f bg).1
     ["pdf"; "doc"; "image"; "markdown"; "text"; "other"]%string /\
  (detectType f bg).2 = orDefault bg (defaultColor (detectType f bg).1).
Proof.
  unfold detectType.
  repeat match goal with
         | |- context [if ?c then _ else _] => destruct c
         end; simpl; split; auto 10.
Qed.

Lemma split_nonempty (sep : ascii) (s : string) : JSString.split sep s <> [].
Proof.
  destruct s as [|c s]; simpl; [discriminate|].
  destruct (Ascii.eqb c sep); [discriminate|].
  destruct (JSString.split sep s); discriminate.
Qed.

Lemma join_split (sep : ascii) (s : string) :
  join sep (JSString.split sep s) = s.
Proof.
  induction s as [|c s IH]; [reflexivity|]. simpl JSString.split.
  pose proof (split_nonempty sep s) as Hne.
  destruct (Ascii.eqb_spec c sep) as [->|_].
  - destruct (JSString.split sep s) as [|p r]; [congruence|].
    change (join sep (EmptyString :: p :: r))
      with (String sep (join sep (p :: r))).
    now rewrite IH.
  - destruct (JSString.split sep s) as [|p r]; [congruence|].
    destruct r as [|p' r]; simpl in *; [now rewrite IH|].
    rewrite append_cons. now rewrite IH.
Qed.

Lemma split_clean (sep : ascii) (s : string) :
  Forall (fun p => hasChar sep p = false) (JSString.split sep s).
Proof.
  induction s as [|c s IH]; simpl; [repeat constructor|].
  destruct (Ascii.eqb c sep) eqn:E; [constructor; [reflexivity|exact IH]|].
  destruct (JSString.split sep s) as [|p r]; [repeat constructor; simpl|].
  - now rewrite E.
  - inversion IH as [|? ? Hp Hr]; subst. constructor; [|exact Hr].
    simpl. now rewrite E, Hp.
Qed.

Lemma join_last (sep : ascii) (l : list string) :
  l <> [] ->
  exists pre,
    join sep l = (pre ++ List.last l EmptyString)%string /\
    (pre = EmptyString \/
     exists p, pre = (p ++ String sep EmptyString)%string).
Proof.
  induction l as [|x l IH]; [congruence|]. intros _.
  destruct l as [|y r].
  - exists EmptyString. split; [reflexivity | now left].
  - destruct IH as (pre & E & Hpre); [discriminate|].
    exists (x ++ String sep pre)%string. split.
    + change (join sep (x :: y :: r))
        with (x ++ String sep (join sep (y :: r)))%string.
      change (List.last (x :: y :: r) EmptyString)
        with (List.last (y :: r) EmptyString).
      rewrite E, append_assoc, append_cons. reflexivity.
    + right. destruct Hpre as [->|(p & ->)].
      * now exists x.
      * exists (x ++ String sep p)%string.
        now rewrite append_assoc, append_cons.
Qed.

End UploadMore.

(** X16.  The type given to an upload is one of pdf, doc, image, markdown,
    text and other, never article; its colour is the caller's when that
    is given and not empty, and otherwise the default of the type. *)
Theorem detectType_table (f : Upload.File.t) (bg : option string) :
  let '(type, color) := Upload.detectType f bg in
  In type ["pdf"; "doc"; "image"; "markdown"; "text"; "other"]%string /\
  type <> "article"%string /\
  color = (if JS.truthyOpt bg then default EmptyString bg
           else defaultColor type).
Proof.
  pose proof (UploadMore.detectType_cases f bg) as [Hin Hc].
  destruct (Upload.detectType f bg) as [ty color]. simpl in *.
  split; [exact Hin|]. split.
  - intros ->. repeat destruct Hin as [Hin|Hin]; discriminate || tauto.
  - rewrite Hc. unfold Upload.orDefault. now destruct bg.
Qed.

(** X17.  The file is stored under the unique name followed by a dot and the
    part of the file's name after its last dot, or the whole name when
    it has no dot; every request of the call names that same path. *)
Theorem upload_path_extension (be : Upload.Backend)
    (params : Upload.Params.t) :
  let name := Upload.File.name (Upload.Params.file params) in
  let ext := JSString.pop (JSString.split "." name) in
  hasChar "." ext = false /\
  (exists pre,
      name = (pre ++ ext)%string /\
      (pre = EmptyString \/ exists p, pre = (p ++ ".")%string)) /\
  Forall (fun e =>
            match e with
            | Upload.StorageUpload path _
            | Upload.InsertDocument _ _ path
            | Upload.StorageRemove path =>
                path = (Upload.uniqueName be ++ "." ++ ext)%string
            end)
    (Upload.uploadFile be params).1.
Proof.
  intros name ext. split; [|split].
  - unfold ext, JSString.pop.
    pose proof (UploadMore.split_clean "." name) as H.
    pose proof (UploadMore.split_nonempty "." name) as Hne.
    apply List.Forall_forall with (x := List.last (JSString.split "." name)
                                          EmptyString) in H; [exact H|].
    destruct (List.exists_last Hne) as (l' & a & ->).
    rewrite List.last_last. apply List.in_app_iff. right. now left.
  - destruct (UploadMore.join_last "." (JSString.split "." name)
                (UploadMore.split_nonempty "." name)) as (pre & E & Hpre).
    rewrite UploadMore.join_split in E. exists pre. split; assumption.
  - unfold Upload.uploadFile. fold name. fold ext.
    destruct (Upload.detectType _ _) as [ty bg].
    destruct (Upload.uploadError be); [|destruct (Upload.insertResult be)];
      simpl; repeat constructor.
Qed.



(** * Titles and texts as the forms send them *)

Module TrimFacts.
Import JSString.

Lemma trimStart_clean (s : string) : startsClean (trimStart s).
Proof.
  induction s as [|c s IH]; simpl; [exact I|].
  destruct (isSpace c) eqn:E; [exact IH | exact E].
Qed.

Lemma trimStart_id (s : string) : startsClean s -> trimStart s = s.
Proof. destruct s as [|c s]; simpl; [reflexivity|]. now intros ->. Qed.

Lemma trimEnd_clean (s : string) : startsClean s -> startsClean (trimEnd s).
Proof.
  destruct s as [|c s]; simpl; [exact (fun H => H)|]. intros Hc.
  destruct (trimEnd s); [now rewrite Hc | exact Hc].
Qed.

Lemma trimEnd_idem (s : string) : trimEnd (trimEnd s) = trimEnd s.
Proof.
  induction s as [|c s IH]; simpl; [reflexivity|].
  destruct (trimEnd s) as [|c' r] eqn:E.
  - destruct (isSpace c) eqn:Hc; simpl; [reflexivity | now rewrite Hc].
  - change (trimEnd (String c (String c' r)))
      with (match trimEnd (String c' r) with
            | EmptyString =>
                if isSpace c then EmptyString else String c EmptyString
            | rest => String c rest
            end).
    now rewrite IH.
Qed.

Lemma trim_idem (s : string) : trim (trim s) = trim s.
Proof.
  unfold trim.
  rewrite (trimStart_id (trimEnd (trimStart s))).
  - apply trimEnd_idem.
  - apply trimEnd_clean, trimStart_clean.
Qed.

Lemma trimmed (s : string) :
  JS.truthy (trim s) = true -> trimmedNonEmpty (trim s).
Proof. intros H. split; [exact H | apply trim_idem]. Qed.

End TrimFacts.

Module EditorFacts.
Import Editor.

Lemma handleSave_sendable (be : Service.SaveBackend) (st : State) :
  Forall articleSendable (handleSave be st).1.1.
Proof.
  unfold handleSave.
  destruct (JS.truthy (JSString.trim (title st))) eqn:Ht; simpl;
    [|constructor].
  destruct (JS.truthy (JSString.trim (content st))) eqn:Hc; simpl;
    [|constructor].
  unfold Service.saveArticle. simpl.
  destruct (Service.saveResult be); simpl;
    (constructor; [|constructor]);
    split; now apply TrimFacts.trimmed.
Qed.

Lemma editor_run_sendable (actions : list Action) (st : State) :
  Forall articleSendable (run actions st).1.
Proof.
  revert st. induction actions as [|a actions IH]; intros st; simpl.
  - constructor.
  - assert (Hs : Forall articleSendable (step a st).1).
    { destruct a; simpl; try constructor.
      pose proof (handleSave_sendable be st) as H.
      destruct (handleSave be st) as [[tr st'] doc]. exact H. }
    destruct (step a st) as [tr st1]. specialize (IH st1).
    destruct (run actions st1) as [tr' st2]. simpl in *.
    apply List.Forall_app. split; assumption.
Qed.

End EditorFacts.

(** X19.  Whatever is typed into the editor and whatever the backend answers,
    every article sent for saving has a title and a content that are
    not empty and have no white space around them. *)
Theorem editor_sends_no_blank (actions : list Editor.Action)
    (st : Editor.State) :
  Forall articleSendable (Editor.run actions st).1.
Proof. apply EditorFacts.editor_run_sendable. Qed.

(** A title or content of white space only is refused with a message
    and nothing is sent. *)
Example editor_refuses_blank :
  let st := Editor.mkState "   " "text" EmptyString EmptyString "#E3F2FD"
              false None in
  let be := Service.mkSaveBackend 0 (inr "7"%string) in
  Editor.handleSave be st =
  ([], Editor.setError (Some "Title and content are required"%string) st,
   None).
Proof. reflexivity. Qed.

Module ModalFacts.
Import Upload Upload.Modal.

Lemma modal_submit_sendable (be : Backend) (st : State) :
  Forall uploadSendable (handleSubmit be st).1.1.
Proof.
  unfold handleSubmit.
  destruct (selectedFile st) as [file|]; [|constructor].
  destruct (JS.truthy (JSString.trim (title st))) eqn:Ht; simpl;
    [|constructor].
  unfold uploadFile. simpl.
  destruct (detectType _ _) as [ty bg].
  destruct (uploadError be); [|destruct (insertResult be)]; simpl;
    repeat constructor; now apply TrimFacts.trimmed.
Qed.

Lemma modal_run_sendable (actions : list Action) (st : State) :
  Forall uploadSendable (run actions st).1.
Proof.
  revert st. induction actions as [|a actions IH]; intros st; simpl.
  - constructor.
  - assert (Hs : Forall uploadSendable (step a st).1).
    { destruct a; simpl; try constructor.
      pose proof (modal_submit_sendable be st) as H.
      destruct (handleSubmit be st) as [[tr st'] doc]. exact H. }
    destruct (step a st) as [tr st1]. specialize (IH st1).
    destruct (run actions st1) as [tr' st2]. simpl in *.
    apply List.Forall_app. split; assumption.
Qed.

End ModalFacts.

(** X20.  Whatever is done in the upload form, every record it asks to insert
    has a title that is not empty and has no white space around it. *)
Theorem upload_form_sends_no_blank_title
    (actions : list Upload.Modal.Action) (st : Upload.Modal.State) :
  Forall uploadSendable (Upload.Modal.run actions st).1.
Proof. apply ModalFacts.modal_run_sendable. Qed.

(** X21.  A document uploaded through the form has the colour shown in the
    form, whenever that is not empty: the default colour of the file's
    type is not used. *)
Theorem upload_form_colour_wins (be : Upload.Backend)
    (st : Upload.Modal.State) (doc : Document) :
  (Upload.Modal.handleSubmit be st).2 = Some doc ->
  JS.truthy (Upload.Modal.backgroundColor st) = true ->
  backgroundColor doc = Upload.Modal.backgroundColor st.
Proof.
  unfold Upload.Modal.handleSubmit. intros H Hc.
  destruct (Upload.Modal.selectedFile st) as [file|]; [|discriminate].
  destruct (negb _); [discriminate|].
  unfold Upload.uploadFile in H. simpl in H.
  pose proof (UploadMore.detectType_cases file
                (Some (Upload.Modal.backgroundColor st))) as [_ Hbg].
  destruct (Upload.detectType _ _) as [ty bg]. simpl in Hbg.
  unfold Upload.orDefault in Hbg. simpl in Hbg. rewrite Hc in Hbg.
  simpl in Hbg. subst bg.
  destruct (Upload.uploadError be); [discriminate|].
  destruct (Upload.insertResult be); [discriminate|].
  simpl in H. injection H as <-. simpl. now rewrite Hc.
Qed.

Lemma upload_form_colour_wins_witness :
  exists doc,
    (Upload.Modal.handleSubmit BigUpload.backend SmallUpload.form).2 =
      Some doc /\
    JS.truthy (Upload.Modal.backgroundColor SmallUpload.form) = true /\
    backgroundColor doc = "#FFCDD2"%string.
Proof.
  eexists. split; [reflexivity|]. split; [reflexivity|].
  exact (upload_form_colour_wins BigUpload.backend SmallUpload.form _
           eq_refl eq_refl).
Defined.

(** A PDF uploaded from the untouched form gets the form's blue, not
    the red of its type. *)
Example pdf_from_fresh_form_is_blue :
  let st := Upload.Modal.onDrop
              [Upload.File.mk "a.pdf" "application/pdf" 1000]
              (Upload.Modal.mkState "A" None EmptyString EmptyString
                 "#E3F2FD" false None) in
  option_map backgroundColor
    (Upload.Modal.handleSubmit BigUpload.backend st).2 =
  Some "#E3F2FD"%string /\
  defaultColor "pdf" = "#FFEBEE"%string.
Proof. split; reflexivity. Qed.

(** * Articles *)



(** * Reading rows *)

(** The document [uploadFile] returns is [transformSupabaseDocument] of
    the row it inserted. *)
Lemma transformInserted_row (newId title type : string) (tags : list string)
    (date_added : Z) (category : option string)
    (background_color storage_path : string) :
  Upload.transformInserted newId title type tags date_added category
    background_color storage_path =
  transformSupabaseDocument
    (uploadedRow newId title type tags date_added category background_color
       storage_path).
Proof.
  unfold Upload.transformInserted, transformSupabaseDocument, uploadedRow.
  simpl. now destruct category as [[|c s]|].
Qed.

Lemma uncategorized_row (row : DocumentRow.t) :
  categoryMatch ["uncategorized"%string] (transformSupabaseDocument row)
  = true <->
  JS.truthyOpt (DocumentRow.category row) = false \/
  DocumentRow.category row = Some "uncategorized"%string.
Proof.
  unfold categoryMatch, transformSupabaseDocument. cbn [category].
  unfold JS.arrIncludesOpt, JS.arrIncludes. cbn [existsb].
  change (String.eqb "all" "uncategorized") with false.
  change (String.eqb "uncategorized" "uncategorized") with true.
  destruct (DocumentRow.category row) as [c|]; cbn [JS.truthyOpt default].
  - destruct (JS.truthy c) eqn:Ht.
    + change (Datatypes.id c) with c. rewrite Ht.
      cbn [negb andb orb]. rewrite ?andb_false_r, ?orb_false_r.
      rewrite String.eqb_eq.
      split; [intros ->; now right | intros [H|H]; congruence].
    + destruct c; [|discriminate]. cbn. split; [now left | reflexivity].
  - cbn. split; [now left | reflexivity].
Qed.

(** X23.  Every document [listDocuments] returns has a category (the empty
    string when the row has none) and a colour that is not empty; it
    counts as uncategorized exactly when its row has no category or an
    empty one; and the dates come in the order of the rows. *)
Theorem listDocuments_shape (data : option (list DocumentRow.t))
    (today : Z) :
  exists docs,
    Service.listDocuments (inr data) = inr docs /\
    length docs = length (default [] data) /\
    map dateAdded docs = map DocumentRow.date_added (default [] data) /\
    Forall (fun d => category d <> None /\
                     JS.truthy (backgroundColor d) = true) docs /\
    (forall row,
        In row (default [] data) ->
        (In (transformSupabaseDocument row)
            (filterDocuments docs files EmptyString
               (FilterOptions.mk [] ["uncategorized"%string] TfAll [])
               today) <->
         JS.truthyOpt (DocumentRow.category row) = false \/
         DocumentRow.category row = Some "uncategorized"%string)).
Proof.
  eexists. split; [reflexivity|].
  set (rows := default [] data).
  split; [apply List.length_map|].
  split; [rewrite List.map_map; reflexivity|].
  split.
  - apply List.Forall_forall. intros d Hd.
    apply List.in_map_iff in Hd as (row & <- & _).
    unfold transformSupabaseDocument. simpl. split; [discriminate|].
    destruct (DocumentRow.background_color row) as [[|c s]|]; reflexivity.
  - intros row Hrow.
    change (filterDocuments (map transformSupabaseDocument rows) files
              EmptyString
              (FilterOptions.mk [] ["uncategorized"%string] TfAll []) today)
      with (List.filter (categoryMatch ["uncategorized"%string])
              (map transformSupabaseDocument rows)).
    rewrite List.filter_In.
    assert (Hin : In (transformSupabaseDocument row)
                    (map transformSupabaseDocument rows))
      by now apply List.in_map.
    rewrite uncategorized_row. tauto.
Qed.

(** * More of the viewer *)

(** X24.  An article is loaded with one request, for its content, and nothing
    is asked of the storage.  Opened from a closed viewer it shows the
    content, the fallback without a download when the content is empty,
    and the error when the request fails. *)
Theorem article_load (net : Viewer.Net) (document : Document)
    (st : Viewer.State) :
  type document = "article"%string ->
  (Viewer.loadDocument net document st).1 =
    [Viewer.GetArticleContent (id document)] /\
  Viewer.renderContent document
    (Viewer.loadDocument net document Viewer.resetState).2 =
  match Viewer.articleContent net with
  | Some text =>
      if JS.truthy text then Viewer.TextView text else Viewer.Fallback None
  | None => Viewer.ErrorView "Error loading document"
  end.
Proof.
  intros E. unfold Viewer.loadDocument. rewrite E.
  change (String.eqb "article" "article") with true. cbv beta iota.
  destruct (Viewer.articleContent net) as [text|]; simpl.
  - split; [reflexivity|]. unfold Viewer.renderContent. simpl.
    destruct (JS.truthy text); reflexivity.
  - split; reflexivity.
Qed.

Lemma article_load_witness :
  type Scenario.doc1 = "article"%string /\
  (Viewer.loadDocument PreviewSample.net Scenario.doc1
     Viewer.resetState).1 = [Viewer.GetArticleContent "1"].
Proof.
  split; [reflexivity|].
  exact (proj1 (article_load PreviewSample.net Scenario.doc1
                  Viewer.resetState eq_refl)).
Defined.

(** X25.  A document that is not an article and whose row cannot be read or
    has no stored file shows the error, after a single request: no
    preview is asked for and nothing is fetched. *)
Theorem missing_file_is_error (net : Viewer.Net) (document : Document) :
  type document <> "article"%string ->
  (Viewer.documentRow net = None \/
   exists ty, Viewer.documentRow net = Some (None, ty) \/
              Viewer.documentRow net = Some (Some EmptyString, ty)) ->
  (Viewer.loadDocument net document Viewer.resetState).1 =
    [Viewer.GetDownloadUrl (id document)] /\
  Viewer.renderContent document
    (Viewer.loadDocument net document Viewer.resetState).2 =
  Viewer.ErrorView "Error loading document".
Proof.
  intros Hna Hrow. apply String.eqb_neq in Hna.
  assert (H : Viewer.getDocumentDownloadUrl net = None).
  { unfold Viewer.getDocumentDownloadUrl.
    destruct Hrow as [->|(ty & [->| ->])]; reflexivity. }
  unfold Viewer.loadDocument. rewrite Hna, H. split; reflexivity.
Qed.

Lemma missing_file_is_error_witness :
  let net := Viewer.mkNet None (Some (None, "pdf"%string))
               (fun p => p) (fun _ => None) in
  type Scenario.doc2 <> "article"%string /\
  Viewer.renderContent Scenario.doc2
    (Viewer.loadDocument net Scenario.doc2 Viewer.resetState).2 =
  Viewer.ErrorView "Error loading document".
Proof.
  assert (Hna : type Scenario.doc2 <> "article"%string) by discriminate.
  split; [exact Hna|].
  refine (proj2 (missing_file_is_error _ Scenario.doc2 Hna _)).
  right. exists "pdf"%string. now left.
Defined.

(** X26.  The text of a file is fetched only for the markdown and plain-text
    modes, and from the address the preview gave. *)
Theorem text_fetch_only_for_text (net : Viewer.Net) (document : Document)
    (st : Viewer.State) (url : string) :
  In (Viewer.Fetch url) (Viewer.loadDocument net document st).1 ->
  (Viewer.classify (type document) (storagePath document) = Viewer.Markdown \/
   Viewer.classify (type document) (storagePath document) = Viewer.PlainText)
  /\ exists previewType,
       Viewer.previewDocument net = Some (url, previewType).
Proof.
  unfold Viewer.loadDocument, Viewer.classify.
  destruct (String.eqb (type document) "article").
  { destruct (Viewer.articleContent net); simpl; intros [H|[]]; discriminate. }
  destruct (Viewer.getDocumentDownloadUrl net) as [dl|].
  2: { simpl. intros [H|[]]. discriminate. }
  destruct (Viewer.previewDocument net) as [[u ct]|].
  2: { simpl. intros [H|[H|[]]]; discriminate. }
  destruct (String.eqb (type document) "pdf").
  { simpl. intros [H|[H|[]]]; discriminate. }
  destruct (String.eqb (type document) "image").
  { simpl. intros [H|[H|[]]]; discriminate. }
  destruct (JS.includes (type document) "markdown"
            || Viewer.pathEndsWith (storagePath document) ".md").
  { simpl. intros [H|[H|[H|[]]]]; try discriminate.
    injection H as ->. split; [now left | now exists ct]. }
  destruct (JS.includes (type document) "text"
            || Viewer.pathEndsWith (storagePath document) ".txt"
            || Viewer.pathEndsWith (storagePath document) ".json").
  { simpl. intros [H|[H|[H|[]]]]; try discriminate.
    injection H as ->. split; [now right | now exists ct]. }
  simpl. intros [H|[H|[]]]; discriminate.
Qed.

Lemma text_fetch_only_for_text_witness :
  In (Viewer.Fetch "https://storage.example/1700000000000_abc.md")
    (Viewer.loadDocument PreviewSample.net PreviewSample.notesMd
       Viewer.resetState).1 /\
  (Viewer.classify (type PreviewSample.notesMd)
     (storagePath PreviewSample.notesMd) = Viewer.Markdown \/
   Viewer.classify (type PreviewSample.notesMd)
     (storagePath PreviewSample.notesMd) = Viewer.PlainText).
Proof.
  assert (H : In (Viewer.Fetch "https://storage.example/1700000000000_abc.md")
                (Viewer.loadDocument PreviewSample.net PreviewSample.notesMd
                   Viewer.resetState).1).
  { right. right. left. reflexivity. }
  split; [exact H|].
  exact (proj1 (text_fetch_only_for_text PreviewSample.net
                  PreviewSample.notesMd Viewer.resetState _ H)).
Defined.

(** X27.  When the text of a markdown or text file cannot be fetched, or is
    empty, the viewer opened on it shows no error: it falls back to
    offering the download. *)
Theorem failed_text_fetch_falls_back (net : Viewer.Net)
    (document : Document) (dl url previewType : string) :
  Viewer.classify (type document) (storagePath document) = Viewer.Markdown \/
  Viewer.classify (type document) (storagePath document) = Viewer.PlainText ->
  Viewer.getDocumentDownloadUrl net = Some dl ->
  Viewer.previewDocument net = Some (url, previewType) ->
  JS.truthyOpt (Viewer.fetchText net url) = false ->
  Viewer.renderContent document
    (Viewer.loadDocument net document Viewer.resetState).2 =
  Viewer.Fallback (if JS.truthy dl then Some dl else None).
Proof.
  intros Hmode Hdl Hpv Hfetch.
  unfold Viewer.loadDocument. unfold Viewer.classify in Hmode.
  destruct (String.eqb (type document) "article") eqn:Ea;
    [destruct Hmode; discriminate|].
  rewrite Hdl, Hpv.
  destruct (String.eqb (type document) "pdf") eqn:Ep;
    [destruct Hmode; discriminate|].
  destruct (String.eqb (type document) "image") eqn:Ei;
    [destruct Hmode; discriminate|].
  assert (R : forall ctype,
             Viewer.renderContent document
               (Viewer.mkState (Some url) (Some dl)
                  match Viewer.fetchText net url with
                  | Some text => Some text
                  | None => Viewer.fileContent Viewer.resetState
                  end ctype false None) =
             Viewer.Fallback (if JS.truthy dl then Some dl else None)).
  { intros ctype. unfold Viewer.renderContent. simpl.
    destruct (Viewer.fetchText net url) as [text|]; simpl in *.
    - rewrite Hfetch, Ei, Ep, !andb_false_r. reflexivity.
    - rewrite Ei, Ep, !andb_false_r. reflexivity. }
  destruct (JS.includes (type document) "markdown"
            || Viewer.pathEndsWith (storagePath document) ".md");
    [apply R|].
  destruct (JS.includes (type document) "text"
            || Viewer.pathEndsWith (storagePath document) ".txt"
            || Viewer.pathEndsWith (storagePath document) ".json");
    [apply R|].
  destruct Hmode; discriminate.
Qed.

Lemma failed_text_fetch_falls_back_witness :
  let net := Viewer.mkNet None (Some (Some "n.md"%string, "markdown"%string))
               (fun p => ("https://s/" ++ p)%string) (fun _ => None) in
  Viewer.renderContent PreviewSample.notesMd
    (Viewer.loadDocument net PreviewSample.notesMd Viewer.resetState).2 =
  Viewer.Fallback (Some "https://s/n.md"%string).
Proof.
  exact (failed_text_fetch_falls_back
           (Viewer.mkNet None (Some (Some "n.md"%string, "markdown"%string))
              (fun p => ("https://s/" ++ p)%string) (fun _ => None))
           PreviewSample.notesMd "https://s/n.md" "https://s/n.md"
           "text/markdown" (or_introl eq_refl) eq_refl eq_refl eq_refl).
Defined.

(** * Paging *)

Module PagerFacts.
Import Pager.

Lemma press_inRange (n : Z) (st : State) (b : Button) :
  pageInRange n st -> pageInRange n (press st b).
Proof.
  intros [Hn Hp]. destruct b; simpl.
  - unfold nextPage, pagesOr1. rewrite Hn.
    destruct (n =? 0) eqn:E0;
      [apply Z.eqb_eq in E0 | apply Z.eqb_neq in E0];
      match goal with
      | |- context [?a <? ?b] => destruct (Z.ltb_spec a b)
      end; split; simpl; auto; lia.
  - unfold prevPage.
    destruct (Z.ltb_spec 1 (pageNumber st)); split; simpl; auto; lia.
Qed.

End PagerFacts.

(** X28.  However the two page buttons are pressed on a loaded PDF of [n]
    pages, the page shown stays between 1 and [n] (it stays 1 when
    [n] is 0 or less). *)
Theorem pager_stays_in_range (n : Z) (buttons : list Pager.Button) :
  pageInRange n (fold_left Pager.press buttons (Pager.loaded n)).
Proof.
  assert (H : pageInRange n (Pager.loaded n)).
  { split; [reflexivity | simpl; lia]. }
  revert H. generalize (Pager.loaded n).
  induction buttons as [|b buttons IH]; intros st H; simpl; [exact H|].
  apply IH. now apply PagerFacts.press_inRange.
Qed.

(** Enough presses of "next" reach the last page, and only it. *)
Example pager_three_pages :
  map (fun k => Pager.pageNumber
                  (fold_left Pager.press (repeat Pager.Next k)
                     (Pager.loaded 3)))
      [0; 1; 2; 3; 4]%nat = [1; 2; 3; 3; 3].
Proof. reflexivity. Qed.
